(** * Medium data extraction: the extraction, normalisation and load nodes

    A shallow embedding of [src/api_medium/pipelines/data_processing/nodes.py]:
    the four extraction nodes ([extract_users], [fetch_user_articles_info],
    [fetch_publications_info], [fetch_top_feeds]), the pandas operations they
    use on data frames ([pd.concat], [DataFrame.explode]), the tag relevance
    computation of the publication node, and the BigQuery load blocks.

    Conventions of the model:
    - a Python [dict] with string keys is a [gmap string value]; a
      [pd.DataFrame] is the list of its rows, each row a [dict] from column
      name to cell ([ignore_index=True] everywhere, so the index is the
      position in the list);
    - a Python [str] is a [string]; [str.lower] and the regular expression
      class [\w] are modelled on the ASCII range: on ASCII text
      ([is_ascii_text]) they are what Python computes, and the statements
      about words and counts are made for ASCII text only;
    - an attribute access or call that may raise returns a [result];
    - the logger, the warehouse and the clock are the fields of [world],
      threaded through the nodes by the monad [M];
    - a [dict] (hence a [Counter]) iterates in insertion order, as in
      Python 3.7 and later. *)

From Stdlib Require Import ZArith List String Ascii Bool Lia.
From stdpp Require Import base gmap strings list.
Import ListNotations.
Local Open Scope string_scope.
Local Open Scope list_scope.

(** ** Python values and exceptions *)

Inductive scalar :=
| SNone
| SNaN
| SStr (s : string)
| SInt (z : Z)
| SBool (b : bool).

(** A cell or attribute value: a scalar, or a list (the multi-valued
    attributes; the platform's identifiers, tags and keywords are strings). *)
Inductive value :=
| VScalar (s : scalar)
| VList (l : list string).

Inductive exception :=
| KeyError (key : string)
| TypeError (msg : string)
| AttributeError (msg : string)
| IndexError (msg : string)
| ClientError (msg : string).   (* anything raised by an external library *)

(** [str(e)] *)
Definition str_exc (e : exception) : string :=
  match e with
  | KeyError k => "'" +:+ k +:+ "'"
  | TypeError m | AttributeError m | IndexError m | ClientError m => m
  end.

Definition result (A : Type) : Type := exception + A.

(** Truth value of a Python object, as tested by [if x:]. *)
Definition truthy (v : value) : bool :=
  match v with
  | VScalar SNone => false
  | VScalar SNaN => true
  | VScalar (SStr s) => negb (String.eqb s "")
  | VScalar (SInt z) => negb (Z.eqb z 0)
  | VScalar (SBool b) => b
  | VList l => match l with [] => false | _ :: _ => true end
  end.

(** ** Text: [str.lower], [in] on strings, [re.findall(r'\b\w+\b', _)] *)

(** The text the model of [lower] and [\w] below is exact for: every
    character is an ASCII character. On other text Python lower-cases and
    classifies by the Unicode tables, which are not modelled. *)
Fixpoint is_ascii_text (s : string) : bool :=
  match s with
  | EmptyString => true
  | String c r => (nat_of_ascii c <? 128)%nat && is_ascii_text r
  end.

Definition is_upper (c : ascii) : bool :=
  (65 <=? nat_of_ascii c)%nat && (nat_of_ascii c <=? 90)%nat.

Definition lower_char (c : ascii) : ascii :=
  if is_upper c then ascii_of_nat (nat_of_ascii c + 32) else c.

Fixpoint lower (s : string) : string :=
  match s with
  | EmptyString => EmptyString
  | String c r => String (lower_char c) (lower r)
  end.

(** [\w]: letters, digits and the underscore. *)
Definition is_word_char (c : ascii) : bool :=
  let n := nat_of_ascii c in
  ((48 <=? n)%nat && (n <=? 57)%nat)
  || ((65 <=? n)%nat && (n <=? 90)%nat)
  || ((97 <=? n)%nat && (n <=? 122)%nat)
  || (n =? 95)%nat.

(** [needle in hay]: [needle] occurs in [hay] as a contiguous substring. *)
Fixpoint str_in (needle hay : string) : bool :=
  String.prefix needle hay ||
  match hay with
  | EmptyString => false
  | String _ r => str_in needle r
  end.

Definition flush (run : string) : list string :=
  match run with EmptyString => [] | _ => [run] end.

(** The scanner behind [re.findall(r'\b\w+\b', s)]: [\b\w+\b] matches
    exactly the maximal runs of word characters, left to right. [run] is the
    run being read. *)
Fixpoint scan_words (run : string) (s : string) : list string :=
  match s with
  | EmptyString => flush run
  | String c r =>
      if is_word_char c then scan_words (run +:+ String c EmptyString) r
      else flush run ++ scan_words EmptyString r
  end.

Definition findall_words (s : string) : list string := scan_words EmptyString s.

(** ** [collections.Counter] as used by the publication node

    A [Counter] is a [dict]: iteration follows insertion order, and storing
    under a key already present keeps the key's position. *)

Definition Counter : Type := list (string * nat).

Fixpoint counter_setitem (c : Counter) (k : string) (v : nat) : Counter :=
  match c with
  | [] => [(k, v)]
  | (k', v') :: r =>
      if String.eqb k' k then (k', v) :: r
      else (k', v') :: counter_setitem r k v
  end.


(** [max(items, key=itemgetter(1))]: the running best is replaced only by a
    strictly greater count. *)
Definition max_by_count (first : string * nat) (rest : Counter) : string * nat :=
  fold_left (fun best item => if (snd best <? snd item)%nat then item else best)
            rest first.

(** [Counter.most_common(1)], which is [heapq.nlargest(1, self.items(), key)]:
    the empty list for an empty counter, else the one maximal item. *)
Definition most_common_1 (c : Counter) : Counter :=
  match c with
  | [] => []
  | x :: r => [max_by_count x r]
  end.

(** [sum(...)] of a sequence of numbers. *)
Definition py_sum (l : list nat) : nat := fold_left Nat.add l 0.

(** [sum(1 for word in words if word.lower() in tag.lower())] *)
Definition tag_relevance (words : list string) (tag : string) : nat :=
  py_sum (map (fun _ => 1) (List.filter (fun word => str_in (lower word) (lower tag)) words)).

(** The loop [for tag in publication_tags: hashtag_relevance[tag] = ...]
    started from [Counter()]. *)
Definition hashtag_relevance (words : list string) (publication_tags : list string) : Counter :=
  fold_left (fun c tag => counter_setitem c tag (tag_relevance words tag))
            publication_tags [].

(** [words = re.findall(r'\b\w+\b', description.lower())] *)
Definition description_words (description : string) : list string :=
  findall_words (lower description).

(** Lines 421-426 of [fetch_publications_info] on a description and a tag
    sequence: [hashtag_relevance.most_common(1)[0][0]]. *)
Definition most_relevant_tag (description : string) (publication_tags : list string)
  : result string :=
  match most_common_1 (hashtag_relevance (description_words description) publication_tags) with
  | [] => inl (IndexError "list index out of range")
  | item :: _ => inr (fst item)
  end.


(** ** Dictionaries and data frames *)

Abbreviation dict := (gmap string value).

(** [d[k]] *)
Definition dict_getitem (d : dict) (k : string) : result value :=
  match d !! k with
  | Some v => inr v
  | None => inl (KeyError k)
  end.

(** [d.pop(k, None)]: the value under [k] (or [None]) and the dictionary
    without [k]. *)
Definition dict_pop (d : dict) (k : string) : value * dict :=
  (default (VScalar SNone) (d !! k), delete k d).

(** A data frame is the list of its rows. A row built from a dictionary
    holds the keys of that dictionary; a column that some other row of the
    frame has and this one lacks reads as NaN ([df_cell]). *)
Definition DataFrame : Type := list dict.

Definition df_has_column (df : DataFrame) (col : string) : bool :=
  existsb (fun r => bool_decide (is_Some (r !! col))) df.

(** [row[col]] for a [row] yielded by [df.iterrows()]. *)
Definition df_cell (df : DataFrame) (row : dict) (col : string) : result value :=
  if df_has_column df col then inr (default (VScalar SNaN) (row !! col))
  else inl (KeyError col).

(** [pd.concat([a, b], ignore_index=True)] *)
Definition pd_concat (a b : DataFrame) : DataFrame := a ++ b.

(** [DataFrame.explode(col)] on one row: a non-empty list gives one row per
    element in order, an empty list gives ONE row whose cell is NaN, a scalar
    is left as it is. (Every call site explodes a column of the one-row frame
    it has just built, so the column exists.) *)
Definition explode_row (col : string) (r : dict) : list dict :=
  match r !! col with
  | Some (VList []) => [<[col := VScalar SNaN]> r]
  | Some (VList l) => map (fun x => <[col := VScalar (SStr x)]> r) l
  | _ => [r]
  end.

Definition explode (col : string) (df : DataFrame) : DataFrame :=
  flat_map (explode_row col) df.

(** [pd.DataFrame([{parent_col: parent, child_col: child}]).explode(child_col)] *)
Definition relation_frame (parent_col : string) (parent : value)
           (child_col : string) (child : value) : DataFrame :=
  explode child_col [ <[child_col := child]> (<[parent_col := parent]> ∅) ].

(** ** The external collaborators *)

(** [datetime.date] and [strftime('%Y-%m-%d')], for the dates a clock
    gives: years of four digits (for a year below 1000 the C library behind
    [strftime] may not pad the year; no such date comes from
    [datetime.now()]). *)
Record date := { year : nat; month : nat; day : nat }.

Definition digit (n : nat) : ascii := ascii_of_nat (48 + n mod 10).

Definition strftime_Ymd (d : date) : string :=
  String (digit (year d / 1000)) (String (digit (year d / 100))
  (String (digit (year d / 10)) (String (digit (year d))
  (String "-" (String (digit (month d / 10)) (String (digit (month d))
  (String "-" (String (digit (day d / 10)) (String (digit (day d)) EmptyString))))))))).

(** Objects of the [medium_api] client. Every attribute is fetched on
    access, so reading it may raise. *)
Record User := {
  User_id : string;                        (* [user._id] *)
  User_info : result dict;
  User_followers_ids : result value;
  User_following_ids : result value;
  User_article_ids : result value
}.

Record Comment := { Comment_info : result dict }.

Record Article := {
  Article_info : result dict;
  Article_fans_ids : result value;
  Article_related_articles_ids : result value;
  Article_is_self_published : result value;
  Article_content : result value;
  Article_markdown : result value;
  Article_responses : result (list Comment)
}.

Record Publication := {
  Publication_info : result dict;
  Publication_articles : result (list string)   (* the [_id] of each article *)
}.

Record TopFeeds := { TopFeeds_ids : result value }.

Record Medium := {
  Medium_article : value -> result Article;
  Medium_search_publications : string -> result (list Publication);
  Medium_topfeeds : string -> string -> string -> result TopFeeds
}.

(** The process environment: the credentials file reader, the BigQuery
    service (whether an append is refused, given the table contents so far)
    and the system clock (its successive readings). *)
Record Env := {
  credentials : Type;
  read_service_account_file : string -> result credentials;
  to_gbq_error : credentials -> string -> DataFrame -> gmap string DataFrame -> option exception;
  datetime_now : nat -> date
}.

(** What a node can observe and change outside its local variables. *)
Record world := {
  log : list string;                         (* [logger.error] messages *)
  bq_calls : list (string * DataFrame);      (* [to_gbq] calls made *)
  bq_tables : gmap string DataFrame;         (* rows held by the warehouse *)
  clock_reads : nat                          (* readings taken from the clock *)
}.

Definition world0 : world :=
  {| log := []; bq_calls := []; bq_tables := ∅; clock_reads := 0 |}.

(** ** The monad of nodes: state that survives a raised exception *)

Definition M (A : Type) : Type := world -> result A * world.

Definition ret {A} (a : A) : M A := fun w => (inr a, w).

Definition bind {A B} (c : M A) (k : A -> M B) : M B :=
  fun w => match c w with
           | (inr a, w') => k a w'
           | (inl e, w') => (inl e, w')
           end.

Definition lift {A} (r : result A) : M A := fun w => (r, w).

(** [try: body  except Exception as e: handler(e)] *)
Definition try_except {A} (body : M A) (handler : exception -> M A) : M A :=
  fun w => match body w with
           | (inl e, w') => handler e w'
           | ok => ok
           end.

Notation "'do' x <- c ; k" := (bind c (fun x => k))
  (at level 10, x name, c at level 100, k at level 200).

(** The same sequencing for computations that only may raise. *)
Definition rbind {A B} (r : result A) (k : A -> result B) : result B :=
  match r with
  | inr a => k a
  | inl e => inl e
  end.

Notation "'doR' x <- r ; k" := (rbind r (fun x => k))
  (at level 10, x name, r at level 100, k at level 200).

(** [for x in l: acc = body(acc, x)], left at the first exception. *)
Fixpoint for_fold {X Acc} (body : Acc -> X -> M Acc) (l : list X) (acc : Acc) : M Acc :=
  match l with
  | [] => ret acc
  | x :: r => do acc' <- body acc x; for_fold body r acc'
  end.

Fixpoint rfor_fold {X Acc} (body : Acc -> X -> result Acc) (l : list X) (acc : Acc)
  : result Acc :=
  match l with
  | [] => inr acc
  | x :: r => doR acc' <- body acc x; rfor_fold body r acc'
  end.

Definition add_log (w : world) (msgs : list string) : world :=
  {| log := log w ++ msgs; bq_calls := bq_calls w;
     bq_tables := bq_tables w; clock_reads := clock_reads w |}.

(** [logger.error(msg)] *)
Definition logger_error (msg : string) : M unit :=
  fun w => (inr tt, add_log w [msg]).

(** [datetime.now().date()] *)
Definition datetime_now_date (env : Env) : M date :=
  fun w => (inr (datetime_now env (clock_reads w)),
            {| log := log w; bq_calls := bq_calls w;
               bq_tables := bq_tables w; clock_reads := S (clock_reads w) |}).

(** ** Loading to BigQuery *)

(** How an f-string renders the result of [google_cloud_config.get(key)]. *)
Definition fstr (o : option string) : string := default "None" o.

(** [service_account.Credentials.from_service_account_file(path)]: opening
    [None] is a [TypeError]. *)
Definition from_service_account_file (env : Env) (path : option string)
  : result (credentials env) :=
  match path with
  | None => inl (TypeError "expected str, bytes or os.PathLike object, not NoneType")
  | Some p => read_service_account_file env p
  end.

(** The call is recorded; an accepted call appends the rows to what the
    destination holds. *)
Definition add_call (w : world) (destination_table : string) (df : DataFrame) : world :=
  {| log := log w; bq_calls := bq_calls w ++ [(destination_table, df)];
     bq_tables := bq_tables w; clock_reads := clock_reads w |}.

Definition append_rows (w : world) (destination_table : string) (df : DataFrame) : world :=
  {| log := log w; bq_calls := bq_calls w;
     bq_tables := <[destination_table := default [] (bq_tables w !! destination_table) ++ df]>
                  (bq_tables w);
     clock_reads := clock_reads w |}.

Definition replace_rows (w : world) (destination_table : string) (df : DataFrame) : world :=
  {| log := log w; bq_calls := bq_calls w;
     bq_tables := <[destination_table := df]> (bq_tables w);
     clock_reads := clock_reads w |}.

(** The [if_exists] argument of [pandas_gbq.to_gbq]: what to do when the
    destination table exists. *)
Inductive if_exists_mode :=
| if_exists_fail       (* raise *)
| if_exists_replace    (* drop the table and write the frame *)
| if_exists_append.    (* insert the rows after those the table holds *)

(** [to_gbq(df, destination, if_exists=..., credentials=credentials)]. A
    table that does not exist is created in every mode. *)
Definition to_gbq (env : Env) (df : DataFrame) (destination_table : string)
           (if_exists : if_exists_mode) (creds : credentials env) : M unit :=
  fun w =>
    let called := add_call w destination_table df in
    match to_gbq_error env creds destination_table df (bq_tables w) with
    | Some e => (inl e, called)
    | None =>
        match if_exists with
        | if_exists_append => (inr tt, append_rows called destination_table df)
        | if_exists_replace => (inr tt, replace_rows called destination_table df)
        | if_exists_fail =>
            match bq_tables w !! destination_table with
            | Some _ =>
                (inl (ClientError "Could not create the table because it already exists. Change the if_exists parameter to 'append' or 'replace' data."),
                 called)
            | None => (inr tt, append_rows called destination_table df)
            end
        end
    end.

(** [f"{project_id}.{dataset_id}.{table}"] *)
Definition destination_of (project_id dataset_id table : option string) : string :=
  fstr project_id +:+ "." +:+ fstr dataset_id +:+ "." +:+ fstr table.

Definition msg_upload (table : option string) (e : exception) : string :=
  "Uploading records to table: " +:+ fstr table +:+ " failed. Error: " +:+ str_exc e.

(** One [# LOADING ... TABLE] block; every block passes
    [if_exists="append"]. *)
Definition load_table (env : Env) (creds : credentials env)
           (project_id dataset_id : option string)
           (df_table : DataFrame * option string) : M unit :=
  let (df, table) := df_table in
  try_except
    (to_gbq env df (destination_of project_id dataset_id table) if_exists_append creds)
    (fun e => logger_error (msg_upload table e)).

(** The block of the frame [df] whose table name is configured under
    [key]. *)
Definition load_block (env : Env) (creds : credentials env)
           (google_cloud_config : gmap string string)
           (_ : unit) (df_key : DataFrame * string) : M unit :=
  let (df, key) := df_key in
  load_table env creds (google_cloud_config !! "project")
             (google_cloud_config !! "dataset_id") (df, google_cloud_config !! key).

(** The body of [if load_to_bq:], for the frames of a node paired with the
    configuration keys of their tables, in the order of the blocks: the
    [get]s (which never raise), the credentials, then one block per frame. *)
Definition load_to_bigquery (env : Env) (google_cloud_config : gmap string string)
           (frames : list (DataFrame * string)) : M unit :=
  let credentials_path := google_cloud_config !! "credentials_path" in
  do creds <- lift (from_service_account_file env credentials_path);
  for_fold (load_block env creds google_cloud_config) frames tt.

(** ** Node [extract_users] *)

Record users_frames := {
  users_info_df : DataFrame;
  users_top_writer_in_df : DataFrame;
  user_followers_df : DataFrame;
  user_followings_df : DataFrame;
  users_articles_df : DataFrame
}.

Definition users_frames0 : users_frames :=
  {| users_info_df := []; users_top_writer_in_df := []; user_followers_df := [];
     user_followings_df := []; users_articles_df := [] |}.

Definition user_key (user : User) : value := VScalar (SStr (User_id user)).

(** The pattern [if child: df = pd.concat([df, pd.DataFrame([{parent_col:
    info['id'], child_col: child}]).explode(child_col)], ignore_index=True)]
    that the nodes repeat for the attributes popped from an [info]
    dictionary. *)
Definition append_relation (df : DataFrame) (info : dict) (parent_col child_col : string)
           (child : value) : result DataFrame :=
  if truthy child then
    doR id <- dict_getitem info "id";
    inr (pd_concat df (relation_frame parent_col id child_col child))
  else inr df.

(** Body of the first [try] (lines 74-85). Both frames are assigned after
    the last point that can raise. *)
Definition user_info_body (user : User) (fr : users_frames) : result users_frames :=
  doR info <- User_info user;
  let (user_top_writer_in, user_info) := dict_pop info "top_writer_in" in
  let user_info_df := [user_info] in
  doR top_writer_in_df <-
    append_relation (users_top_writer_in_df fr) user_info "user_id" "keyword"
                    user_top_writer_in;
  inr {| users_info_df := pd_concat (users_info_df fr) user_info_df;
         users_top_writer_in_df := top_writer_in_df;
         user_followers_df := user_followers_df fr;
         user_followings_df := user_followings_df fr;
         users_articles_df := users_articles_df fr |}.

(** Bodies of the second, third and fourth [try] (lines 91-93, 98-100,
    105-107): no test of the list before [explode]. *)
Definition user_followers_body (user : User) (fr : users_frames) : result users_frames :=
  doR followers_ids <- User_followers_ids user;
  inr {| users_info_df := users_info_df fr;
         users_top_writer_in_df := users_top_writer_in_df fr;
         user_followers_df :=
           pd_concat (user_followers_df fr)
                     (relation_frame "user_id" (user_key user) "follower_id" followers_ids);
         user_followings_df := user_followings_df fr;
         users_articles_df := users_articles_df fr |}.

Definition user_followings_body (user : User) (fr : users_frames) : result users_frames :=
  doR following_ids <- User_following_ids user;
  inr {| users_info_df := users_info_df fr;
         users_top_writer_in_df := users_top_writer_in_df fr;
         user_followers_df := user_followers_df fr;
         user_followings_df :=
           pd_concat (user_followings_df fr)
                     (relation_frame "user_id" (user_key user) "following_id" following_ids);
         users_articles_df := users_articles_df fr |}.

Definition user_articles_body (user : User) (fr : users_frames) : result users_frames :=
  doR article_ids <- User_article_ids user;
  inr {| users_info_df := users_info_df fr;
         users_top_writer_in_df := users_top_writer_in_df fr;
         user_followers_df := user_followers_df fr;
         user_followings_df := user_followings_df fr;
         users_articles_df :=
           pd_concat (users_articles_df fr)
                     (relation_frame "user_id" (user_key user) "article_id" article_ids) |}.

Definition msg_user_info (user : User) (e : exception) : string :=
  "Getting user info failed for user_id: " +:+ User_id user +:+ ". Error: " +:+ str_exc e.
Definition msg_user_followers (user : User) (e : exception) : string :=
  "Getting followers users failed for user_id: " +:+ User_id user +:+ ". Error: " +:+ str_exc e.
Definition msg_user_followings (user : User) (e : exception) : string :=
  "Getting following users failed for user_id: " +:+ User_id user +:+ ". Error: " +:+ str_exc e.
Definition msg_user_articles (user : User) (e : exception) : string :=
  "Getting articles for user_id: " +:+ User_id user +:+ " failed. Error: " +:+ str_exc e.

(** One [try]/[except] of the loop: on an exception the frames are what
    they were and the message is logged. *)
Definition guarded (body : users_frames -> result users_frames)
           (msg : exception -> string) (fr : users_frames) : M users_frames :=
  try_except (lift (body fr)) (fun e => do _ <- logger_error (msg e); ret fr).

(** Body of [for user in top_writers_users:] (lines 72-109). *)
Definition extract_user (fr : users_frames) (user : User) : M users_frames :=
  do fr1 <- guarded (user_info_body user) (msg_user_info user) fr;
  do fr2 <- guarded (user_followers_body user) (msg_user_followers user) fr1;
  do fr3 <- guarded (user_followings_body user) (msg_user_followings user) fr2;
  guarded (user_articles_body user) (msg_user_articles user) fr3.

Definition users_load_list (fr : users_frames) : list (DataFrame * string) :=
  [ (users_info_df fr, "user_info_table");
    (users_top_writer_in_df fr, "users_top_writer_in_table");
    (user_followers_df fr, "user_followers_table");
    (user_followings_df fr, "user_followings_table");
    (users_articles_df fr, "users_articles_table") ].

Definition extract_users (env : Env) (top_writers_users : list User)
           (google_cloud_config : gmap string string) (load_to_bq : bool)
  : M users_frames :=
  do fr <- for_fold extract_user top_writers_users users_frames0;
  do _ <- (if load_to_bq
           then load_to_bigquery env google_cloud_config (users_load_list fr)
           else ret tt);
  ret fr.

(** ** Node [fetch_user_articles_info] *)

Record articles_frames := {
  articles_info_df : DataFrame;
  article_tags_df : DataFrame;
  article_topics_df : DataFrame;
  article_fans_id_df : DataFrame;
  article_related_articles_ids_df : DataFrame;
  articles_comments_info_df : DataFrame;
  article_comments_tag_info_df : DataFrame;
  article_comments_topic_info_df : DataFrame
}.

Definition articles_frames0 : articles_frames :=
  {| articles_info_df := []; article_tags_df := []; article_topics_df := [];
     article_fans_id_df := []; article_related_articles_ids_df := [];
     articles_comments_info_df := []; article_comments_tag_info_df := [];
     article_comments_topic_info_df := [] |}.

(** Body of [for comment in comments:] (lines 258-274). *)
Definition comment_body (article_id : value) (fr : articles_frames) (comment : Comment)
  : result articles_frames :=
  doR info <- Comment_info comment;
  let info := <["article_id" := article_id]> info in
  let (comment_tag, info) := dict_pop info "tags" in
  let (comment_topic, comment_info) := dict_pop info "topics" in
  let comments_info_df := pd_concat (articles_comments_info_df fr) [comment_info] in
  doR tag_df <- append_relation (article_comments_tag_info_df fr) comment_info
                                "comment_id" "tag" comment_tag;
  doR topic_df <- append_relation (article_comments_topic_info_df fr) comment_info
                                  "comment_id" "topic" comment_topic;
  inr {| articles_info_df := articles_info_df fr;
         article_tags_df := article_tags_df fr;
         article_topics_df := article_topics_df fr;
         article_fans_id_df := article_fans_id_df fr;
         article_related_articles_ids_df := article_related_articles_ids_df fr;
         articles_comments_info_df := comments_info_df;
         article_comments_tag_info_df := tag_df;
         article_comments_topic_info_df := topic_df |}.

(** Body of [for index, row in users_articles_df.iterrows():] (lines
    221-274). Nothing in it is inside a [try]. *)
Definition article_body (medium_instance : Medium) (users_articles : DataFrame)
           (fr : articles_frames) (row : dict) : result articles_frames :=
  doR article_id <- df_cell users_articles row "article_id";
  doR article_object <- Medium_article medium_instance article_id;
  doR info <- Article_info article_object;
  doR fans_ids <- Article_fans_ids article_object;
  doR related_articles_ids <- Article_related_articles_ids article_object;
  doR is_self_published <- Article_is_self_published article_object;
  doR content <- Article_content article_object;
  doR markdown <- Article_markdown article_object;
  let info := <["markdown" := markdown]> (<["content" := content]>
              (<["is_self_published" := is_self_published]>
              (<["related_articles_ids" := related_articles_ids]>
              (<["fans_ids" := fans_ids]> info)))) in
  let (article_tags, info) := dict_pop info "tags" in
  let (article_topics, info) := dict_pop info "topics" in
  let (article_fans_id, info) := dict_pop info "fans_ids" in
  let (article_related_articles_ids, article_info) := dict_pop info "related_articles_ids" in
  doR tags_df <- append_relation (article_tags_df fr) article_info
                                 "article_id" "tag" article_tags;
  doR topics_df <- append_relation (article_topics_df fr) article_info
                                   "article_id" "topic" article_topics;
  doR fans_df <- append_relation (article_fans_id_df fr) article_info
                                 "article_id" "fan_id" article_fans_id;
  doR related_df <- append_relation (article_related_articles_ids_df fr) article_info
                                    "article_id" "related_article_id"
                                    article_related_articles_ids;
  let fr1 := {| articles_info_df := pd_concat (articles_info_df fr) [article_info];
                article_tags_df := tags_df;
                article_topics_df := topics_df;
                article_fans_id_df := fans_df;
                article_related_articles_ids_df := related_df;
                articles_comments_info_df := articles_comments_info_df fr;
                article_comments_tag_info_df := article_comments_tag_info_df fr;
                article_comments_topic_info_df := article_comments_topic_info_df fr |} in
  doR comments <- Article_responses article_object;
  rfor_fold (comment_body article_id) comments fr1.

Definition articles_load_list (fr : articles_frames) : list (DataFrame * string) :=
  [ (articles_info_df fr, "articles_info_table");
    (article_tags_df fr, "article_tags_table");
    (article_topics_df fr, "article_topics_table");
    (article_fans_id_df fr, "article_fans_id_table");
    (article_related_articles_ids_df fr, "article_related_articles_table");
    (articles_comments_info_df fr, "articles_comments_info_table");
    (article_comments_tag_info_df fr, "article_comments_tag_info_table");
    (article_comments_topic_info_df fr, "article_comments_topic_info_table") ].

Definition fetch_user_articles_info (env : Env) (medium_instance : Medium)
           (users_articles : DataFrame) (google_cloud_config : gmap string string)
           (load_to_bq : bool) : M articles_frames :=
  do fr <- lift (rfor_fold (article_body medium_instance users_articles)
                           users_articles articles_frames0);
  do _ <- (if load_to_bq
           then load_to_bigquery env google_cloud_config (articles_load_list fr)
           else ret tt);
  ret fr.

(** ** Node [fetch_publications_info] *)

Record publications_frames := {
  publication_info_df : DataFrame;
  publication_tags_df : DataFrame;
  publication_editors_df : DataFrame;
  publication_articles_df : DataFrame
}.

Definition publications_frames0 : publications_frames :=
  {| publication_info_df := []; publication_tags_df := [];
     publication_editors_df := []; publication_articles_df := [] |}.

(** [type(v).__name__] *)
Definition type_name (v : value) : string :=
  match v with
  | VScalar SNone => "NoneType"
  | VScalar SNaN => "float"
  | VScalar (SStr _) => "str"
  | VScalar (SInt _) => "int"
  | VScalar (SBool _) => "bool"
  | VList _ => "list"
  end.

(** [description.lower()] needs a [str]. *)
Definition as_str (v : value) : result string :=
  match v with
  | VScalar (SStr s) => inr s
  | _ => inl (AttributeError ("'" +:+ type_name v +:+ "' object has no attribute 'lower'"))
  end.

(** [for tag in publication_tags]: a list gives its elements, a [str] its
    characters, anything else is not iterable. *)
Definition iter_tags (v : value) : result (list string) :=
  match v with
  | VList l => inr l
  | VScalar (SStr s) => inr (map (fun c => String c EmptyString) (list_ascii_of_string s))
  | VScalar _ => inl (TypeError ("'" +:+ type_name v +:+ "' object is not iterable"))
  end.

(** Body of [for publication in publications:] (lines 415-444). Nothing in
    it is inside a [try]. *)
Definition publication_body (fr : publications_frames) (publication : Publication)
  : result publications_frames :=
  doR info <- Publication_info publication;
  let (publication_tags, info) := dict_pop info "tags" in
  let (publication_editors, info) := dict_pop info "editors" in
  doR article_ids <- Publication_articles publication;
  let publication_articles := VList article_ids in
  doR description <- dict_getitem info "description";
  doR description <- as_str description;
  doR tags <- iter_tags publication_tags;
  doR tag <- most_relevant_tag description tags;
  let publication_info := <["most_relevant_tag" := VScalar (SStr tag)]> info in
  let info_df := pd_concat (publication_info_df fr) [publication_info] in
  doR tags_df <- append_relation (publication_tags_df fr) publication_info
                                 "publication_id" "tag" publication_tags;
  doR editors_df <- append_relation (publication_editors_df fr) publication_info
                                    "publication_id" "editor" publication_editors;
  doR articles_df <- append_relation (publication_articles_df fr) publication_info
                                     "publication_id" "article" publication_articles;
  inr {| publication_info_df := info_df;
         publication_tags_df := tags_df;
         publication_editors_df := editors_df;
         publication_articles_df := articles_df |}.

Definition publications_load_list (fr : publications_frames) : list (DataFrame * string) :=
  [ (publication_info_df fr, "publication_info_table");
    (publication_tags_df fr, "publication_tags_table");
    (publication_editors_df fr, "publication_editors_table");
    (publication_articles_df fr, "publication_articles_table") ].

Definition fetch_publications_info (env : Env) (medium_instance : Medium)
           (topic_slug : string) (google_cloud_config : gmap string string)
           (load_to_bq : bool) : M publications_frames :=
  do publications <- lift (Medium_search_publications medium_instance topic_slug);
  do fr <- lift (rfor_fold publication_body publications publications_frames0);
  do _ <- (if load_to_bq
           then load_to_bigquery env google_cloud_config (publications_load_list fr)
           else ret tt);
  ret fr.

(** ** Node [fetch_top_feeds] *)

(** Body of [for feed in feed_mode:] (lines 524-535); [today_date] was read
    before the loop. *)
Definition top_feed_body (medium_instance : Medium) (topic_slug count : string)
           (today_date : date) (top_feeds_df : DataFrame) (feed : string)
  : result DataFrame :=
  doR articles <- Medium_topfeeds medium_instance topic_slug count feed;
  doR ids <- TopFeeds_ids articles;
  let top_feed_df :=
    [ <["article_id" := ids]>
      (<["captured_on_date" := VScalar (SStr (strftime_Ymd today_date))]>
      (<["feed_mode" := VScalar (SStr feed)]> ∅)) ] in
  inr (pd_concat top_feeds_df (explode "article_id" top_feed_df)).

Definition fetch_top_feeds (env : Env) (medium_instance : Medium)
           (topic_slug : string) (feed_mode : list string) (count : string)
           (google_cloud_config : gmap string string) (load_to_bq : bool)
  : M DataFrame :=
  do today_date <- datetime_now_date env;
  do top_feeds_df <- lift (rfor_fold (top_feed_body medium_instance topic_slug count today_date)
                                     feed_mode []);
  do _ <- (if load_to_bq
           then load_to_bigquery env google_cloud_config [(top_feeds_df, "top_feeds_table")]
           else ret tt);
  ret top_feeds_df.

(** ** Vocabulary of the statements *)

(** Every character of [s] satisfies [P]. *)
Fixpoint chars_all (P : ascii -> Prop) (s : string) : Prop :=
  match s with
  | EmptyString => True
  | String c r => P c /\ chars_all P r
  end.

(** The counter loop for any count that depends on the tag alone. *)
Definition fill (score : string -> nat) (tags : list string) : Counter :=
  fold_left (fun c tag => counter_setitem c tag (score tag)) tags [].

(** Every key of the counter carries its count. *)
Definition scored (score : string -> nat) (c : Counter) : Prop :=
  Forall (fun kv => snd kv = score (fst kv)) c.

(** [t] is the first tag of [tags] with the greatest count. *)
Definition first_greatest (score : string -> nat) (tags : list string) (t : string) : Prop :=
  exists pre post, tags = pre ++ t :: post
    /\ Forall (fun x => score x < score t) pre
    /\ Forall (fun x => score x <= score t) post.

(** The count the node computes, written as a number of words: the
    description tokens that occur inside the lower-cased tag. *)
Definition words_inside_tag (description : string) (tag : string) : nat :=
  length (List.filter (fun word => str_in word (lower tag)) (description_words description)).

(** What one user adds to each frame and to the log, read off the outcome
    of the one sub-operation concerned. *)
Definition user_info_outcome (user : User) : result (dict * DataFrame) :=
  doR info <- User_info user;
  let (user_top_writer_in, user_info) := dict_pop info "top_writer_in" in
  doR keywords <- append_relation [] user_info "user_id" "keyword" user_top_writer_in;
  inr (user_info, keywords).

Definition user_info_rows (user : User) : DataFrame :=
  match user_info_outcome user with inr (user_info, _) => [user_info] | inl _ => [] end.

Definition user_keyword_rows (user : User) : DataFrame :=
  match user_info_outcome user with inr (_, keywords) => keywords | inl _ => [] end.

Definition user_relation_rows (user : User) (child_col : string) (ids : result value)
  : DataFrame :=
  match ids with
  | inr v => relation_frame "user_id" (user_key user) child_col v
  | inl _ => []
  end.

Definition failure_log {A} (outcome : result A) (msg : exception -> string) : list string :=
  match outcome with inl e => [msg e] | inr _ => [] end.

Definition user_log (user : User) : list string :=
  failure_log (user_info_outcome user) (msg_user_info user)
  ++ failure_log (User_followers_ids user) (msg_user_followers user)
  ++ failure_log (User_following_ids user) (msg_user_followings user)
  ++ failure_log (User_article_ids user) (msg_user_articles user).

(** The destination a configuration gives to the table under [key]. *)
Definition destination (cfg : gmap string string) (key : string) : string :=
  destination_of (cfg !! "project") (cfg !! "dataset_id") (cfg !! key).

(** [w'] comes after [w]: the log and the rows of every warehouse table have
    only been added to, the clock has not been read. *)
Definition extends (w w' : world) : Prop :=
  (exists msgs, log w' = log w ++ msgs)
  /\ (forall d rows, bq_tables w !! d = Some rows ->
                     exists more, bq_tables w' !! d = Some (rows ++ more))
  /\ clock_reads w' = clock_reads w.


(** The common shape of the four nodes: the extraction, then the load stage
    if the flag is set, then [return]. *)
Definition then_load {A} (env : Env) (cfg : gmap string string)
           (load_list : A -> list (DataFrame * string)) (extraction : M A)
           (load_to_bq : bool) : M A :=
  do fr <- extraction;
  do _ <- (if load_to_bq then load_to_bigquery env cfg (load_list fr) else ret tt);
  ret fr.

(** [s] is spelt YYYY-MM-DD. *)
Definition is_digit (c : ascii) : bool :=
  (48 <=? nat_of_ascii c)%nat && (nat_of_ascii c <=? 57)%nat.

Definition is_Ymd (s : string) : bool :=
  match s with
  | String y1 (String y2 (String y3 (String y4 (String sep1 (String m1 (String m2
      (String sep2 (String d1 (String d2 EmptyString))))))))) =>
      is_digit y1 && is_digit y2 && is_digit y3 && is_digit y4
      && Ascii.eqb sep1 "-" && is_digit m1 && is_digit m2
      && Ascii.eqb sep2 "-" && is_digit d1 && is_digit d2
  | _ => false
  end.

(** The cell every row of a top-feed frame should carry. *)
Definition captured_on (today_date : date) (row : dict) : Prop :=
  row !! "captured_on_date" = Some (VScalar (SStr (strftime_Ymd today_date))).

(** ** Test doubles *)

Definition str (s : string) : value := VScalar (SStr s).

(** A writer with three articles, and one with none whose followers cannot
    be fetched. *)
Definition writer_a : User :=
  {| User_id := "u1";
     User_info := inr {[ "id" := str "u1"; "fullname" := str "Ada";
                         "top_writer_in" := VList ["ai"; "data"] ]};
     User_followers_ids := inr (VList ["f1"; "f2"]);
     User_following_ids := inr (VList ["g1"]);
     User_article_ids := inr (VList ["a1"; "a2"; "a3"]) |}.

Definition writer_b : User :=
  {| User_id := "u2";
     User_info := inr {[ "id" := str "u2"; "fullname" := str "Bob" ]};
     User_followers_ids := inl (ClientError "429 Too Many Requests");
     User_following_ids := inr (VList ["g2"]);
     User_article_ids := inr (VList []) |}.

(** An environment whose credentials file loads and whose warehouse refuses
    appends to one table; the clock moves on at every reading. *)
Definition env_ok : Env :=
  {| credentials := unit;
     read_service_account_file := fun _ => inr tt;
     to_gbq_error := fun _ destination _ _ =>
       if String.eqb destination "proj.medium.user_followers"
       then Some (ClientError "403 Forbidden") else None;
     datetime_now := fun n => {| year := 2024; month := 3; day := 9 + n |} |}.


Definition users_config : gmap string string :=
  {[ "project" := "proj"; "dataset_id" := "medium"; "credentials_path" := "key.json";
     "user_info_table" := "user_info";
     "users_top_writer_in_table" := "users_top_writer_in";
     "user_followers_table" := "user_followers";
     "user_followings_table" := "user_followings";
     "users_articles_table" := "users_articles" ]}.

(** The frames after one more user. *)
Definition add_user (fr : users_frames) (user : User) : users_frames :=
  {| users_info_df := users_info_df fr ++ user_info_rows user;
     users_top_writer_in_df := users_top_writer_in_df fr ++ user_keyword_rows user;
     user_followers_df :=
       user_followers_df fr ++ user_relation_rows user "follower_id" (User_followers_ids user);
     user_followings_df :=
       user_followings_df fr ++ user_relation_rows user "following_id" (User_following_ids user);
     users_articles_df :=
       users_articles_df fr ++ user_relation_rows user "article_id" (User_article_ids user) |}.

(** A client with three articles, the second of which cannot be fetched,
    three publications, the second of which has no tag, and two feeds, the
    second of which is empty. *)
Definition article_1 : Article :=
  {| Article_info := inr {[ "id" := str "a1"; "title" := str "On data";
                            "tags" := VList ["data"; "ai"]; "topics" := VList [] ]};
     Article_fans_ids := inr (VList ["f1"]);
     Article_related_articles_ids := inr (VList []);
     Article_is_self_published := inr (VScalar (SBool true));
     Article_content := inr (str "text");
     Article_markdown := inr (str "# text");
     Article_responses :=
       inr [ {| Comment_info := inr {[ "id" := str "c1"; "tags" := VList ["reply"] ]} |} ] |}.

Definition article_3 : Article :=
  {| Article_info := inr {[ "id" := str "a3"; "title" := str "On feeds" ]};
     Article_fans_ids := inr (VList []);
     Article_related_articles_ids := inr (VList ["a1"]);
     Article_is_self_published := inr (VScalar (SBool false));
     Article_content := inr (str "more text");
     Article_markdown := inr (str "more text");
     Article_responses := inr [] |}.

Definition publication_1 : Publication :=
  {| Publication_info := inr {[ "id" := str "p1";
                                "description" := str "data science and machine learning";
                                "tags" := VList ["ai"; "data"; "sports"];
                                "editors" := VList ["u1"] ]};
     Publication_articles := inr ["a1"] |}.

Definition publication_untagged : Publication :=
  {| Publication_info := inr {[ "id" := str "p2"; "description" := str "hello world";
                                "tags" := VList [] ]};
     Publication_articles := inr [] |}.

Definition publication_3 : Publication :=
  {| Publication_info := inr {[ "id" := str "p3"; "description" := str "hello world";
                                "tags" := VList ["xyz"; "abc"] ]};
     Publication_articles := inr ["a3"] |}.

Definition medium_double : Medium :=
  {| Medium_article := fun article_id =>
       match article_id with
       | VScalar (SStr id) =>
           if String.eqb id "a1" then inr article_1
           else if String.eqb id "a3" then inr article_3
           else inl (ClientError "504 Gateway Timeout")
       | _ => inl (ClientError "400 Bad Request")
       end;
     Medium_search_publications := fun _ =>
       inr [publication_1; publication_untagged; publication_3];
     Medium_topfeeds := fun _ _ mode =>
       inr {| TopFeeds_ids := inr (if String.eqb mode "hot" then VList ["a1"; "a3"]
                                   else VList []) |} |}.


(** ** Further vocabulary: row counts, the warehouse, the wiring of the nodes *)



(** From [w] to [w'] the log and every warehouse table have only been
    added to. *)
Definition only_appends (w w' : world) : Prop :=
  (exists msgs, log w' = log w ++ msgs)
  /\ (forall d rows, bq_tables w !! d = Some rows ->
                     exists more, bq_tables w' !! d = Some (rows ++ more)).

(** The rows a load list sends to the destination [d], in the order of the
    blocks. *)
Definition rows_for (cfg : gmap string string) (frames : list (DataFrame * string))
           (d : string) : DataFrame :=
  flat_map (fun df_key : DataFrame * string =>
              if String.eqb (destination cfg (snd df_key)) d then fst df_key else [])
           frames.

(** A warehouse that refuses nothing. *)
Definition accepts_all (env : Env) (creds : credentials env) : Prop :=
  forall d df held, to_gbq_error env creds d df held = None.

(** The info row the publication node stores for a publication: its info
    without [tags] and [editors], with the tag [t] as [most_relevant_tag]. *)
Definition publication_row (info : dict) (t : string) : dict :=
  <["most_relevant_tag" := VScalar (SStr t)]> (delete "editors" (delete "tags" info)).

(** ** Nodes [fetch_top_writers] and the wiring of [create_pipeline] *)

(** The object [medium_instance.top_writers(...)] returns. *)
Record TopWriters := { TopWriters_users : result (list User) }.

(** [fetch_top_writers]; [top_writers] is the method of that name of the
    client. *)
Definition fetch_top_writers (top_writers : string -> string -> result TopWriters)
           (topic_slug count : string) : result (list User) :=
  doR writers <- top_writers topic_slug count;
  TopWriters_users writers.

(** The nodes [fetch_top_writers_node], [extract_users_node] and
    [extract_articles_info] of [create_pipeline], which are chained by the
    data sets [top_writers_users] and [users_articles_df]: each node runs on
    what the node before it returned, all with the same parameters. *)
Definition writers_to_articles (env : Env)
           (top_writers : string -> string -> result TopWriters)
           (medium_instance : Medium) (topic_slug count : string)
           (google_cloud_config : gmap string string) (load_to_bq : bool)
  : M articles_frames :=
  do top_writers_users <- lift (fetch_top_writers top_writers topic_slug count);
  do fr <- extract_users env top_writers_users google_cloud_config load_to_bq;
  fetch_user_articles_info env medium_instance (users_articles_df fr)
                           google_cloud_config load_to_bq.

(** ** Further test doubles *)

(** An environment whose warehouse accepts every append. *)
Definition env_accepting : Env :=
  {| credentials := unit;
     read_service_account_file := fun _ => inr tt;
     to_gbq_error := fun _ _ _ _ => None;
     datetime_now := fun n => {| year := 2024; month := 3; day := 9 + n |} |}.

(** The two articles of [medium_double] that can be fetched. *)
Definition two_articles : DataFrame :=
  [ {[ "user_id" := str "u1"; "article_id" := str "a1" ]};
    {[ "user_id" := str "u1"; "article_id" := str "a3" ]} ].

(** A frame without the column [article_id]. *)
Definition frame_without_article_id : DataFrame :=
  [ {[ "user_id" := str "u1" ]} ].

(** A writer whose info has keywords but no [id]. *)
Definition writer_without_id : User :=
  {| User_id := "u3";
     User_info := inr {[ "fullname" := str "Cy"; "top_writer_in" := VList ["ai"] ]};
     User_followers_ids := inr (VList ["f9"]);
     User_following_ids := inr (VList []);
     User_article_ids := inr (VList ["a9"]) |}.

(** A client whose [new] feed cannot be fetched. *)
Definition medium_feed_down : Medium :=
  {| Medium_article := Medium_article medium_double;
     Medium_search_publications := fun _ => inr [publication_1; publication_3];
     Medium_topfeeds := fun _ _ mode =>
       if String.eqb mode "new" then inl (ClientError "503 Service Unavailable")
       else inr {| TopFeeds_ids := inr (VList ["a1"]) |} |}.

(** A writer whose one article the client [medium_double] can serve. *)
Definition writer_c : User :=
  {| User_id := "u4";
     User_info := inr {[ "id" := str "u4"; "fullname" := str "Dee" ]};
     User_followers_ids := inr (VList []);
     User_following_ids := inr (VList []);
     User_article_ids := inr (VList ["a1"]) |}.

(** The client's [top_writers]: [writer_c], then [writer_b], who has no
    article. *)
Definition top_writers_double (topic_slug count : string) : result TopWriters :=
  inr {| TopWriters_users := inr [writer_c; writer_b] |}.

(** * Properties *)

(** ** Text primitives *)

Lemma prefix_append (n h : string) :
  String.prefix n h = true <-> exists b, h = n +:+ b.
Proof.
  revert h. induction n as [|c n IH]; intros h; simpl.
  - split; [intros _; exists h; reflexivity | intros _; destruct h; reflexivity].
  - destruct h as [|d h]; simpl.
    + split; [discriminate | intros [b Hb]; discriminate].
    + destruct (Ascii.ascii_dec c d) as [->|Hne].
      * rewrite IH. split; intros [b Hb]; exists b; [now rewrite Hb | now injection Hb].
      * split; [discriminate | intros [b Hb]; injection Hb; congruence].
Qed.

(** [str_in] is substring containment. *)
Lemma str_in_unfold (n h : string) :
  str_in n h = String.prefix n h
               || match h with EmptyString => false | String _ r => str_in n r end.
Proof. destruct h; reflexivity. Qed.

Lemma str_in_spec (n h : string) :
  str_in n h = true <-> exists a b, h = a +:+ n +:+ b.
Proof.
  induction h as [|d h IH]; rewrite str_in_unfold.
  - rewrite orb_false_r, prefix_append. split.
    + intros [b Hb]. exists EmptyString, b. exact Hb.
    + intros [a [b Hb]]. destruct a; simpl in Hb; [eauto | discriminate].
  - rewrite orb_true_iff, prefix_append, IH. split.
    + intros [[b Hb] | [a [b Hb]]].
      * exists EmptyString, b. exact Hb.
      * exists (String d a), b. simpl. now rewrite Hb.
    + intros [a [b Hb]]. destruct a as [|a0 a]; simpl in Hb.
      * left. eauto.
      * right. injection Hb as _ Hb. eauto.
Qed.

Lemma lower_char_idem (c : ascii) : lower_char (lower_char c) = lower_char c.
Proof. destruct c as [[] [] [] [] [] [] [] []]; reflexivity. Qed.

Lemma lower_idem (s : string) : lower (lower s) = lower s.
Proof. induction s; simpl; [reflexivity | now rewrite lower_char_idem, IHs]. Qed.

Lemma chars_all_snoc P (s : string) (c : ascii) :
  chars_all P s -> P c -> chars_all P (s +:+ String c EmptyString).
Proof. induction s; simpl; tauto. Qed.

Lemma chars_all_lower (s : string) : chars_all (fun c => lower_char c = c) (lower s).
Proof. induction s; simpl; auto using lower_char_idem. Qed.

Lemma lower_fixed (s : string) : chars_all (fun c => lower_char c = c) s -> lower s = s.
Proof. induction s; simpl; [reflexivity | intros [-> H]; now rewrite IHs]. Qed.

Lemma flush_Forall (P : string -> Prop) (run : string) :
  (run <> EmptyString -> P run) -> Forall P (flush run).
Proof. destruct run; simpl; intros H; constructor; [apply H; discriminate | constructor]. Qed.

(** The tokens hold only characters of the text, and only word characters. *)
Lemma scan_words_chars (P : ascii -> Prop) (s run : string) :
  chars_all P run -> chars_all P s ->
  chars_all (fun c => is_word_char c = true) run ->
  Forall (fun w => w <> EmptyString /\ chars_all P w
                   /\ chars_all (fun c => is_word_char c = true) w)
         (scan_words run s).
Proof.
  revert run. induction s as [|c s IH]; intros run Hrun Hs Hw; simpl.
  - apply flush_Forall. auto.
  - destruct Hs as [Hc Hs]. destruct (is_word_char c) eqn:E.
    + apply IH; auto using chars_all_snoc.
    + apply Forall_app. split; [apply flush_Forall; auto | apply IH; simpl; auto].
Qed.

Lemma description_words_tokens (description : string) :
  Forall (fun w => w <> EmptyString /\ lower w = w
                   /\ chars_all (fun c => is_word_char c = true) w)
         (description_words description).
Proof.
  unfold description_words, findall_words.
  eapply Forall_impl.
  - apply (scan_words_chars (fun c => lower_char c = c)); simpl;
      auto using chars_all_lower.
  - intros w (Hne & Hl & Hw). auto using lower_fixed.
Qed.

(** The tokens are the pieces between separators: a character outside
    [\w] ends the token on its left and starts a new search on its right, and
    a non-empty run of word characters is one token. *)
Lemma scan_words_separator (run a b : string) (c : ascii) :
  is_word_char c = false ->
  scan_words run (a +:+ String c b) = scan_words run a ++ scan_words EmptyString b.
Proof.
  intros Hc. revert run. induction a as [|d a IH]; intros run; simpl.
  - now rewrite Hc.
  - destruct (is_word_char d); [apply IH |]. now rewrite IH, app_assoc.
Qed.

Lemma append_cons (c : ascii) (s t : string) : String c s +:+ t = String c (s +:+ t).
Proof. reflexivity. Qed.

Lemma append_empty_r (s : string) : s +:+ EmptyString = s.
Proof. induction s as [|c s IH]; [reflexivity | now rewrite append_cons, IH]. Qed.

Lemma append_snoc (s w : string) (c : ascii) :
  (s +:+ String c EmptyString) +:+ w = s +:+ String c w.
Proof. induction s as [|d s IH]; [reflexivity | now rewrite !append_cons, IH]. Qed.

Lemma scan_words_run (run w : string) :
  chars_all (fun c => is_word_char c = true) w ->
  scan_words run w = flush (run +:+ w).
Proof.
  revert run. induction w as [|c w IH]; intros run Hw; simpl.
  - now rewrite append_empty_r.
  - destruct Hw as [-> Hw]. rewrite IH by assumption. now rewrite append_snoc.
Qed.

Lemma findall_words_separator (a b : string) (c : ascii) :
  is_word_char c = false ->
  findall_words (a +:+ String c b) = findall_words a ++ findall_words b.
Proof. apply scan_words_separator. Qed.

Lemma findall_words_word (w : string) :
  chars_all (fun c => is_word_char c = true) w -> w <> EmptyString ->
  findall_words w = [w].
Proof.
  intros Hw Hne. unfold findall_words. rewrite scan_words_run by assumption.
  destruct w; [congruence | reflexivity].
Qed.

(** ** The relevance counter *)

Lemma py_sum_ones {A} (l : list A) : py_sum (map (fun _ => 1) l) = length l.
Proof.
  unfold py_sum. enough (H : forall n, fold_left Nat.add (map (fun _ : A => 1) l) n = n + length l)
    by apply (H 0).
  induction l as [|a l IH]; intros n; simpl; [lia | rewrite IH; lia].
Qed.

Lemma tag_relevance_length (words : list string) (tag : string) :
  tag_relevance words tag
  = length (List.filter (fun word => str_in (lower word) (lower tag)) words).
Proof. apply py_sum_ones. Qed.

(** On the words of a description the second [lower] changes nothing. *)
Lemma tag_relevance_description (description tag : string) :
  tag_relevance (description_words description) tag
  = length (List.filter (fun word => str_in word (lower tag))
                        (description_words description)).
Proof.
  rewrite tag_relevance_length. f_equal. apply filter_ext_in. intros w Hw.
  pose proof (description_words_tokens description) as H.
  rewrite Forall_forall in H. apply list_elem_of_In in Hw.
  destruct (H w Hw) as (_ & -> & _). reflexivity.
Qed.

Section Counting.
Variable score : string -> nat.

Lemma counter_setitem_present (c : Counter) (k : string) :
  scored score c -> In k (map fst c) -> counter_setitem c k (score k) = c.
Proof.
  induction c as [|[k' v'] c IH]; simpl; [tauto |].
  intros Hs Hin. inversion Hs as [|? ? Hv Hs']; subst. simpl in Hv.
  destruct (String.eqb_spec k' k) as [->|Hne].
  - now rewrite Hv.
  - destruct Hin as [|Hin]; [congruence | now rewrite IH].
Qed.

Lemma counter_setitem_absent (c : Counter) (k : string) (v : nat) :
  ~ In k (map fst c) -> counter_setitem c k v = c ++ [(k, v)].
Proof.
  induction c as [|[k' v'] c IH]; simpl; [reflexivity |].
  intros Hnin. destruct (String.eqb_spec k' k) as [->|Hne]; [tauto |].
  rewrite IH; tauto.
Qed.


Lemma first_greatest_In (tags : list string) (t x : string) :
  first_greatest score tags t -> In x tags -> score x <= score t.
Proof.
  intros (pre & post & -> & Hpre & Hpost) Hin.
  rewrite Forall_forall in Hpre, Hpost.
  apply in_app_or in Hin. destruct Hin as [Hin | [<- | Hin]].
  - apply list_elem_of_In, Hpre in Hin. lia.
  - lia.
  - apply list_elem_of_In, Hpost in Hin. lia.
Qed.

Lemma fill_snoc (tags : list string) (x : string) :
  fill score (tags ++ [x]) = counter_setitem (fill score tags) x (score x).
Proof. unfold fill. now rewrite fold_left_app. Qed.

Lemma max_by_count_snoc (y : string * nat) (r : Counter) (item : string * nat) :
  max_by_count y (r ++ [item])
  = if (snd (max_by_count y r) <? snd item)%nat then item else max_by_count y r.
Proof. unfold max_by_count. now rewrite fold_left_app. Qed.

(** What the loop has built after the tags [tags]: every key carries its
    count, the keys are the tags seen, and the item [max] selects is the
    first tag with the greatest count. *)
Lemma fill_spec (tags : list string) :
  scored score (fill score tags)
  /\ (forall k, In k (map fst (fill score tags)) <-> In k tags)
  /\ match fill score tags with
     | [] => tags = []
     | x :: r => snd (max_by_count x r) = score (fst (max_by_count x r))
                 /\ first_greatest score tags (fst (max_by_count x r))
     end.
Proof.
  induction tags as [|x tags IH] using rev_ind.
  - repeat split; simpl; try tauto. constructor.
  - destruct IH as (Hs & Hk & Hb). rewrite fill_snoc.
    generalize dependent (fill score tags). intros c Hs Hk Hb.
    destruct (in_dec String.string_dec x (map fst c)) as [Hin | Hnin].
    + rewrite counter_setitem_present by assumption.
      split; [exact Hs |]. split.
      { intros k. rewrite Hk, in_app_iff. simpl. split; [tauto |].
        intros [H | [<- | []]]; [exact H | now apply Hk]. }
      destruct c as [|y r]; [destruct Hin |].
      destruct Hb as [Hv Hfg]. split; [exact Hv |].
      assert (Hle : score x <= score (fst (max_by_count y r)))
        by (apply (first_greatest_In tags); [exact Hfg | now apply Hk]).
      destruct Hfg as (pre & post & -> & Hpre & Hpost).
      exists pre, (post ++ [x]). rewrite <- app_assoc. simpl.
      repeat split; auto. apply Forall_app. split; auto.
    + rewrite counter_setitem_absent by assumption.
      split; [apply Forall_app; split; [exact Hs | repeat constructor] |]. split.
      { intros k. rewrite map_app, !in_app_iff, Hk. reflexivity. }
      destruct c as [|y r]; simpl.
      * subst tags. split; [reflexivity |]. exists [], []. repeat split; constructor.
      * destruct Hb as [Hv Hfg]. rewrite max_by_count_snoc.
        generalize dependent (max_by_count y r). intros b Hv Hfg. simpl.
        destruct (Nat.ltb_spec (snd b) (score x)) as [Hlt | Hge]; simpl.
        -- split; [reflexivity |]. exists tags, []. rewrite Hv in Hlt.
           repeat split; [| constructor]. apply Forall_forall. intros z Hz.
           apply list_elem_of_In in Hz.
           pose proof (first_greatest_In tags _ z Hfg Hz). lia.
        -- split; [exact Hv |]. rewrite Hv in Hge.
           destruct Hfg as (pre & post & -> & Hpre & Hpost).
           exists pre, (post ++ [x]). rewrite <- app_assoc. simpl.
           repeat split; auto. apply Forall_app. split; auto.
Qed.

Lemma fill_nonempty (t : string) (ts : list string) : fill score (t :: ts) <> [].
Proof.
  intros E. destruct (fill_spec (t :: ts)) as (_ & _ & H). rewrite E in H. discriminate.
Qed.
End Counting.

Lemma hashtag_relevance_fill (words tags : list string) :
  hashtag_relevance words tags = fill (tag_relevance words) tags.
Proof. reflexivity. Qed.

(** With at least one tag the node finds a most relevant tag, and it is the
    first tag of the sequence with the greatest count. *)
Lemma most_relevant_tag_first_greatest (description t : string) (ts : list string) :
  exists best, most_relevant_tag description (t :: ts) = inr best
    /\ first_greatest (tag_relevance (description_words description)) (t :: ts) best.
Proof.
  unfold most_relevant_tag. rewrite hashtag_relevance_fill.
  set (score := tag_relevance (description_words description)).
  pose proof (fill_spec score (t :: ts)) as (_ & _ & H).
  pose proof (fill_nonempty score t ts) as Hne.
  destruct (fill score (t :: ts)) as [|x r]; [congruence |].
  simpl. destruct H as [_ H]. eauto.
Qed.

(** ** The most relevant tag of a publication *)

Lemma most_relevant_tag_greatest (description t : string) (ts : list string) :
  exists best, most_relevant_tag description (t :: ts) = inr best
    /\ In best (t :: ts)
    /\ Forall (fun tag => words_inside_tag description tag
                          <= words_inside_tag description best) (t :: ts).
Proof.
  destruct (most_relevant_tag_first_greatest description t ts) as (best & Hb & Hfg).
  exists best. split; [exact Hb |]. split.
  - destruct Hfg as (pre & post & -> & _). apply in_app_iff. right. now left.
  - apply Forall_forall. intros tag Htag. apply list_elem_of_In in Htag.
    unfold words_inside_tag. rewrite <- !tag_relevance_description.
    now apply (first_greatest_In _ (t :: ts)).
Qed.







(** ** Loops and the monad *)

Lemma rfor_fold_app {X Acc} (body : Acc -> X -> result Acc) (pre post : list X) (acc : Acc) :
  rfor_fold body (pre ++ post) acc
  = doR acc' <- rfor_fold body pre acc; rfor_fold body post acc'.
Proof.
  revert acc. induction pre as [|x pre IH]; intros acc; simpl; [reflexivity |].
  destruct (body acc x); simpl; [reflexivity | apply IH].
Qed.

(** A loop without [try] ends at the first record whose body raises. *)
Lemma rfor_fold_raises {X Acc} (body : Acc -> X -> result Acc)
      (pre post : list X) (x : X) (acc acc' : Acc) (e : exception) :
  rfor_fold body pre acc = inr acc' -> body acc' x = inl e ->
  rfor_fold body (pre ++ x :: post) acc = inl e.
Proof. intros Hpre Hx. rewrite rfor_fold_app, Hpre. simpl. now rewrite Hx. Qed.

Lemma add_log_nil (w : world) : add_log w [] = w.
Proof. destruct w. unfold add_log. simpl. now rewrite app_nil_r. Qed.

Lemma add_log_app (w : world) (a b : list string) :
  add_log (add_log w a) b = add_log w (a ++ b).
Proof. unfold add_log. simpl. now rewrite app_assoc. Qed.

(** ** [extract_users]: the loop over the writers *)

Lemma append_relation_from_empty (df : DataFrame) (info : dict) (p c : string) (child : value) :
  append_relation df info p c child
  = doR rows <- append_relation [] info p c child; inr (df ++ rows).
Proof.
  unfold append_relation. destruct (truthy child); simpl; [| now rewrite app_nil_r].
  destruct (dict_getitem info "id"); reflexivity.
Qed.

(** One [try]/[except] adds the rows of a successful body, or the message of
    a failed one, and always hands the frames on. *)
Lemma guarded_run (body : users_frames -> result users_frames)
      (msg : exception -> string) (fr : users_frames) (w : world) :
  guarded body msg fr w
  = match body fr with
    | inr fr' => (inr fr', w)
    | inl e => (inr fr, add_log w [msg e])
    end.
Proof. unfold guarded, try_except, lift. destruct (body fr); reflexivity. Qed.

Lemma guarded_info (fr : users_frames) (user : User) (w : world) :
  guarded (user_info_body user) (msg_user_info user) fr w
  = (inr {| users_info_df := users_info_df fr ++ user_info_rows user;
            users_top_writer_in_df := users_top_writer_in_df fr ++ user_keyword_rows user;
            user_followers_df := user_followers_df fr;
            user_followings_df := user_followings_df fr;
            users_articles_df := users_articles_df fr |},
     add_log w (failure_log (user_info_outcome user) (msg_user_info user))).
Proof.
  rewrite guarded_run.
  unfold user_info_rows, user_keyword_rows, user_info_outcome, user_info_body, pd_concat.
  destruct fr as [f1 f2 f3 f4 f5]. destruct (User_info user) as [e|info]; simpl.
  - now rewrite !app_nil_r.
  - rewrite (append_relation_from_empty f2).
    destruct (append_relation [] _ _ _ _) as [e|kw]; simpl.
    + now rewrite !app_nil_r.
    + now rewrite add_log_nil.
Qed.

Lemma guarded_followers (fr : users_frames) (user : User) (w : world) :
  guarded (user_followers_body user) (msg_user_followers user) fr w
  = (inr {| users_info_df := users_info_df fr;
            users_top_writer_in_df := users_top_writer_in_df fr;
            user_followers_df :=
              user_followers_df fr
              ++ user_relation_rows user "follower_id" (User_followers_ids user);
            user_followings_df := user_followings_df fr;
            users_articles_df := users_articles_df fr |},
     add_log w (failure_log (User_followers_ids user) (msg_user_followers user))).
Proof.
  rewrite guarded_run. unfold user_followers_body, user_relation_rows, pd_concat.
  destruct fr. destruct (User_followers_ids user); simpl;
    [now rewrite app_nil_r | now rewrite add_log_nil].
Qed.

Lemma guarded_followings (fr : users_frames) (user : User) (w : world) :
  guarded (user_followings_body user) (msg_user_followings user) fr w
  = (inr {| users_info_df := users_info_df fr;
            users_top_writer_in_df := users_top_writer_in_df fr;
            user_followers_df := user_followers_df fr;
            user_followings_df :=
              user_followings_df fr
              ++ user_relation_rows user "following_id" (User_following_ids user);
            users_articles_df := users_articles_df fr |},
     add_log w (failure_log (User_following_ids user) (msg_user_followings user))).
Proof.
  rewrite guarded_run. unfold user_followings_body, user_relation_rows, pd_concat.
  destruct fr. destruct (User_following_ids user); simpl;
    [now rewrite app_nil_r | now rewrite add_log_nil].
Qed.

Lemma guarded_articles (fr : users_frames) (user : User) (w : world) :
  guarded (user_articles_body user) (msg_user_articles user) fr w
  = (inr {| users_info_df := users_info_df fr;
            users_top_writer_in_df := users_top_writer_in_df fr;
            user_followers_df := user_followers_df fr;
            user_followings_df := user_followings_df fr;
            users_articles_df :=
              users_articles_df fr
              ++ user_relation_rows user "article_id" (User_article_ids user) |},
     add_log w (failure_log (User_article_ids user) (msg_user_articles user))).
Proof.
  rewrite guarded_run. unfold user_articles_body, user_relation_rows, pd_concat.
  destruct fr. destruct (User_article_ids user); simpl;
    [now rewrite app_nil_r | now rewrite add_log_nil].
Qed.

Lemma extract_user_run (fr : users_frames) (user : User) (w : world) :
  extract_user fr user w = (inr (add_user fr user), add_log w (user_log user)).
Proof.
  unfold extract_user, bind.
  rewrite guarded_info. cbv beta iota.
  rewrite guarded_followers. cbv beta iota.
  rewrite guarded_followings. cbv beta iota.
  rewrite guarded_articles. simpl.
  now rewrite !add_log_app.
Qed.

Lemma fold_add_user (users : list User) (fr : users_frames) :
  fold_left add_user users fr
  = {| users_info_df := users_info_df fr ++ flat_map user_info_rows users;
       users_top_writer_in_df := users_top_writer_in_df fr ++ flat_map user_keyword_rows users;
       user_followers_df :=
         user_followers_df fr
         ++ flat_map (fun u => user_relation_rows u "follower_id" (User_followers_ids u)) users;
       user_followings_df :=
         user_followings_df fr
         ++ flat_map (fun u => user_relation_rows u "following_id" (User_following_ids u)) users;
       users_articles_df :=
         users_articles_df fr
         ++ flat_map (fun u => user_relation_rows u "article_id" (User_article_ids u)) users |}.
Proof.
  revert fr. induction users as [|u users IH]; intros fr.
  - destruct fr. simpl. now rewrite !app_nil_r.
  - simpl. rewrite IH. unfold add_user. simpl. now rewrite <- !app_assoc.
Qed.

Lemma extract_user_loop (users : list User) (fr : users_frames) (w : world) :
  for_fold extract_user users fr w
  = (inr (fold_left add_user users fr), add_log w (flat_map user_log users)).
Proof.
  revert fr w. induction users as [|u users IH]; intros fr w; simpl.
  - unfold ret. now rewrite add_log_nil.
  - unfold bind. rewrite extract_user_run, IH. now rewrite add_log_app.
Qed.

(** The node in full: the loop never raises; what follows it is the load
    stage or nothing. *)
Lemma extract_users_run (env : Env) (users : list User) (cfg : gmap string string)
      (load_to_bq : bool) (w : world) :
  extract_users env users cfg load_to_bq w
  = let fr := fold_left add_user users users_frames0 in
    let w1 := add_log w (flat_map user_log users) in
    if load_to_bq
    then match load_to_bigquery env cfg (users_load_list fr) w1 with
         | (inr _, w2) => (inr fr, w2)
         | (inl e, w2) => (inl e, w2)
         end
    else (inr fr, w1).
Proof.
  unfold extract_users, bind. rewrite extract_user_loop. destruct load_to_bq; simpl.
  - destruct (load_to_bigquery _ _ _ _) as [[e|[]] w2]; reflexivity.
  - reflexivity.
Qed.

Lemma str_in_middle (a n b : string) : str_in n (a +:+ n +:+ b) = true.
Proof. apply str_in_spec. eauto. Qed.

Lemma user_log_names_user (user : User) :
  Forall (fun m => str_in (User_id user) m = true) (user_log user).
Proof.
  unfold user_log, failure_log.
  repeat (apply Forall_app; split);
    match goal with |- Forall _ (match ?o with _ => _ end) => destruct o end;
    repeat constructor; apply str_in_middle.
Qed.

(** C6: in user extraction the four steps of a user (info, followers,
    following, article ids) are four separate boundaries. Whatever fails, the
    loop goes through every user and returns the five frames; each frame
    holds, user after user, the rows of the step that feeds it whenever that
    step succeeded, whatever the other three steps or other users did; and
    every failed step leaves one message in the log, which names the user. *)
Theorem extract_users_isolates_each_step (env : Env) (users : list User)
        (cfg : gmap string string) (w : world) :
  extract_users env users cfg false w
  = (inr {| users_info_df := flat_map user_info_rows users;
            users_top_writer_in_df := flat_map user_keyword_rows users;
            user_followers_df :=
              flat_map (fun u => user_relation_rows u "follower_id" (User_followers_ids u)) users;
            user_followings_df :=
              flat_map (fun u => user_relation_rows u "following_id" (User_following_ids u)) users;
            users_articles_df :=
              flat_map (fun u => user_relation_rows u "article_id" (User_article_ids u)) users |},
     add_log w (flat_map user_log users))
  /\ Forall (fun user => Forall (fun m => str_in (User_id user) m = true) (user_log user))
            users.
Proof.
  split.
  - rewrite extract_users_run. simpl. now rewrite fold_add_user.
  - apply Forall_forall. intros user _. apply user_log_names_user.
Qed.

(** The second writer's followers cannot be fetched: that writer's info,
    following and article rows are there all the same, so are the rows of the
    writer processed after, and the log holds the one message. *)
Example extract_users_followers_failure :
  exists fr w,
    extract_users env_ok [writer_b; writer_a] users_config false world0 = (inr fr, w)
    /\ map (fun row => row !! "id") (users_info_df fr)
       = [Some (str "u2"); Some (str "u1")]
    /\ user_followers_df fr
       = [ {[ "user_id" := str "u1"; "follower_id" := str "f1" ]};
           {[ "user_id" := str "u1"; "follower_id" := str "f2" ]} ]
    /\ user_followings_df fr
       = [ {[ "user_id" := str "u2"; "following_id" := str "g2" ]};
           {[ "user_id" := str "u1"; "following_id" := str "g1" ]} ]
    /\ log w = ["Getting followers users failed for user_id: u2. Error: 429 Too Many Requests"].
Proof. eexists. eexists. repeat split; vm_compute; reflexivity. Qed.

(** C1 on the code: [explode] is applied to the followers, following and
    article-id lists without the emptiness test that guards every popped
    attribute, so a writer with an empty list adds ONE row whose child cell is
    NaN. With a first writer of three articles and a second of none the
    user-articles frame has four rows, the fourth pairing the second writer
    with NaN; the guarded pattern adds no row for an empty list. *)
Theorem extract_users_empty_list_adds_nan_row :
  (exists fr w,
      extract_users env_ok [writer_a; writer_b] users_config false world0 = (inr fr, w)
      /\ users_articles_df fr
         = [ {[ "user_id" := str "u1"; "article_id" := str "a1" ]};
             {[ "user_id" := str "u1"; "article_id" := str "a2" ]};
             {[ "user_id" := str "u1"; "article_id" := str "a3" ]};
             {[ "user_id" := str "u2"; "article_id" := VScalar SNaN ]} ]
      /\ length (users_info_df fr) = 2)
  /\ (forall user child_col,
         length (user_relation_rows user child_col (inr (VList []))) = 1)
  /\ (forall df info parent_col child_col,
         append_relation df info parent_col child_col (VList []) = inr df).
Proof.
  split; [| split].
  - eexists. eexists. split; [vm_compute; reflexivity |]. split; vm_compute; reflexivity.
  - intros user child_col. unfold user_relation_rows, relation_frame, explode, explode_row.
    simpl. now rewrite lookup_insert_eq.
  - reflexivity.
Qed.

(** ** The load stage *)

Lemma extends_refl (w : world) : extends w w.
Proof.
  repeat split.
  - exists []. now rewrite app_nil_r.
  - intros d rows H. exists []. now rewrite app_nil_r.
Qed.

Lemma extends_trans (w1 w2 w3 : world) : extends w1 w2 -> extends w2 w3 -> extends w1 w3.
Proof.
  intros ([l1 H1] & T1 & C1) ([l2 H2] & T2 & C2). repeat split.
  - exists (l1 ++ l2). now rewrite H2, H1, app_assoc.
  - intros d rows H. destruct (T1 d rows H) as [m1 Hm1].
    destruct (T2 d _ Hm1) as [m2 Hm2]. exists (m1 ++ m2). now rewrite Hm2, app_assoc.
  - congruence.
Qed.

(** One load block never raises: either the rows are appended to the
    destination, or the refusal is logged under the table's name. Either way
    the call has been made. *)
Lemma load_table_run (env : Env) (creds : credentials env) (project_id dataset_id : option string)
      (df : DataFrame) (table : option string) (w : world) :
  load_table env creds project_id dataset_id (df, table) w
  = match to_gbq_error env creds (destination_of project_id dataset_id table) df (bq_tables w) with
    | Some e => (inr tt, add_log (add_call w (destination_of project_id dataset_id table) df)
                                 [msg_upload table e])
    | None => (inr tt, append_rows (add_call w (destination_of project_id dataset_id table) df)
                                   (destination_of project_id dataset_id table) df)
    end.
Proof.
  unfold load_table, try_except, to_gbq, logger_error.
  destruct (to_gbq_error _ _ _ _ _); reflexivity.
Qed.

Lemma load_table_extends (env : Env) (creds : credentials env) (project_id dataset_id : option string)
      (df : DataFrame) (table : option string) (w : world) :
  extends w (snd (load_table env creds project_id dataset_id (df, table) w)).
Proof.
  rewrite load_table_run. destruct (to_gbq_error _ _ _ _ _); simpl.
  - repeat split; simpl; eauto. intros d rows H. exists []. now rewrite app_nil_r.
  - repeat split; simpl.
    + exists []. now rewrite app_nil_r.
    + intros d rows H.
      destruct (decide (destination_of project_id dataset_id table = d)) as [<-|Hne].
      * rewrite lookup_insert_eq, H. simpl. eauto.
      * rewrite lookup_insert_ne by assumption. exists []. now rewrite app_nil_r.
Qed.

Section LoadLoop.
Variables (env : Env) (creds : credentials env) (cfg : gmap string string).

(** The blocks in sequence: none raises, each table is attempted in turn,
    a table refused whatever the warehouse holds is logged under its name,
    and a table accepted whatever the warehouse holds has its rows in the
    warehouse at the end. *)
Lemma load_blocks_run (frames : list (DataFrame * string)) (w : world) :
  exists w',
    for_fold (load_block env creds cfg) frames tt w = (inr tt, w')
    /\ extends w w'
    /\ bq_calls w' = bq_calls w ++ map (fun '(df, key) => (destination cfg key, df)) frames
    /\ (forall df key e,
           In (df, key) frames ->
           (forall held, to_gbq_error env creds (destination cfg key) df held = Some e) ->
           In (msg_upload (cfg !! key) e) (log w'))
    /\ (forall df key,
           In (df, key) frames ->
           (forall held, to_gbq_error env creds (destination cfg key) df held = None) ->
           exists before after,
             bq_tables w' !! destination cfg key = Some (before ++ df ++ after)).
Proof.
  revert w. induction frames as [|[df key] frames IH]; intros w.
  - exists w. simpl. rewrite app_nil_r.
    split; [reflexivity |]. split; [apply extends_refl |]. split; [reflexivity |].
    split; intros; contradiction.
  - cbn [for_fold]. unfold bind.
    change (load_block env creds cfg tt (df, key) w)
      with (load_table env creds (cfg !! "project") (cfg !! "dataset_id") (df, cfg !! key) w).
    pose proof (load_table_extends env creds (cfg !! "project") (cfg !! "dataset_id")
                                   df (cfg !! key) w) as Hext.
    pose proof (load_table_run env creds (cfg !! "project") (cfg !! "dataset_id")
                               df (cfg !! key) w) as Hrun.
    fold (destination cfg key) in Hrun.
    destruct (load_table _ _ _ _ _ w) as [r w1] eqn:Hstep. simpl in Hext.
    assert (Hr : r = inr tt /\ bq_calls w1 = bq_calls w ++ [(destination cfg key, df)]).
    { destruct (to_gbq_error _ _ _ _ _); injection Hrun as -> ->; auto. }
    destruct Hr as [-> Hcalls].
    destruct (IH w1) as (w' & Hfold & Hext' & Hcalls' & Hfail & Hok).
    exists w'. split; [simpl; exact Hfold |]. split; [eauto using extends_trans |].
    split; [rewrite Hcalls', Hcalls, <- app_assoc; reflexivity |]. split.
    + intros df0 key0 e [[= <- <-] | Hin] Hrefused; [| eauto].
      rewrite Hrefused in Hrun. injection Hrun as ->.
      destruct Hext' as ([l Hl] & _). rewrite Hl. apply in_app_iff. left.
      simpl. apply in_app_iff. right. now left.
    + intros df0 key0 [[= <- <-] | Hin] Haccepted; [| eauto].
      rewrite Haccepted in Hrun. injection Hrun as ->.
      destruct Hext' as (_ & Hrows & _).
      destruct (Hrows (destination cfg key)
                      (default [] (bq_tables w !! destination cfg key) ++ df))
        as [more Hmore].
      { simpl. apply lookup_insert_eq. }
      exists (default [] (bq_tables w !! destination cfg key)), more.
      now rewrite Hmore, <- app_assoc.
Qed.
End LoadLoop.

Lemma load_to_bigquery_run (env : Env) (cfg : gmap string string)
      (frames : list (DataFrame * string)) (w : world) :
  load_to_bigquery env cfg frames w
  = match from_service_account_file env (cfg !! "credentials_path") with
    | inl e => (inl e, w)
    | inr creds => for_fold (load_block env creds cfg) frames tt w
    end.
Proof.
  unfold load_to_bigquery, bind, lift.
  destruct (from_service_account_file _ _); reflexivity.
Qed.

(** C7: once the credentials are built, the load of each destination table
    is a unit of its own. The load stage never raises; every table of the
    node is attempted, in order, whatever happened to the others; a table
    the warehouse refuses is logged under its table name; and a table the
    warehouse accepts has its rows in the warehouse at the end. *)
Theorem load_failure_leaves_other_tables (env : Env) (cfg : gmap string string)
        (frames : list (DataFrame * string)) (creds : credentials env) (w : world) :
  from_service_account_file env (cfg !! "credentials_path") = inr creds ->
  exists w',
    load_to_bigquery env cfg frames w = (inr tt, w')
    /\ bq_calls w' = bq_calls w ++ map (fun '(df, key) => (destination cfg key, df)) frames
    /\ (forall df key e,
           In (df, key) frames ->
           (forall held, to_gbq_error env creds (destination cfg key) df held = Some e) ->
           In (msg_upload (cfg !! key) e) (log w')
           /\ str_in (fstr (cfg !! key)) (msg_upload (cfg !! key) e) = true)
    /\ (forall df key,
           In (df, key) frames ->
           (forall held, to_gbq_error env creds (destination cfg key) df held = None) ->
           exists before after,
             bq_tables w' !! destination cfg key = Some (before ++ df ++ after)).
Proof.
  intros Hcreds. rewrite load_to_bigquery_run, Hcreds.
  destruct (load_blocks_run env creds cfg frames w) as (w' & Hrun & _ & Hcalls & Hfail & Hok).
  exists w'. split; [exact Hrun |]. split; [exact Hcalls |]. split; [| exact Hok].
  intros df key e Hin Hrefused. split; [eauto |]. apply str_in_middle.
Qed.

(** The five loads of the two writers' frames, with the followers table
    refused: the other four are attempted all the same, and the refusal is
    in the log. *)
Lemma load_failure_leaves_other_tables_witness :
  exists w',
    load_to_bigquery env_ok users_config
      (users_load_list (fold_left add_user [writer_a; writer_b] users_frames0)) world0
    = (inr tt, w')
    /\ map fst (bq_calls w')
       = [ "proj.medium.user_info"; "proj.medium.users_top_writer_in";
           "proj.medium.user_followers"; "proj.medium.user_followings";
           "proj.medium.users_articles" ]
    /\ In (msg_upload (Some "user_followers") (ClientError "403 Forbidden")) (log w')
    /\ exists before after,
         bq_tables w' !! "proj.medium.users_articles"
         = Some (before
                 ++ users_articles_df (fold_left add_user [writer_a; writer_b] users_frames0)
                 ++ after).
Proof.
  destruct (load_failure_leaves_other_tables env_ok users_config
              (users_load_list (fold_left add_user [writer_a; writer_b] users_frames0))
              tt world0 eq_refl)
    as (w' & Hrun & Hcalls & Hfail & Hok).
  exists w'. split; [exact Hrun |]. split; [rewrite Hcalls; reflexivity |]. split.
  - apply (Hfail (user_followers_df (fold_left add_user [writer_a; writer_b] users_frames0))
                 "user_followers_table").
    + simpl. tauto.
    + intros held. reflexivity.
  - apply (Hok (users_articles_df (fold_left add_user [writer_a; writer_b] users_frames0))
               "users_articles_table").
    + simpl. tauto.
    + intros held. reflexivity.
Defined.

(** ** The load flag *)



Lemma fetch_publications_info_then_load (env : Env) (medium_instance : Medium)
      (topic_slug : string) (cfg : gmap string string) (load_to_bq : bool) (w : world) :
  fetch_publications_info env medium_instance topic_slug cfg load_to_bq w
  = then_load env cfg publications_load_list
      (do publications <- lift (Medium_search_publications medium_instance topic_slug);
       lift (rfor_fold publication_body publications publications_frames0))
      load_to_bq w.
Proof.
  unfold fetch_publications_info, then_load, bind, lift.
  destruct (Medium_search_publications medium_instance topic_slug); reflexivity.
Qed.

Lemma fetch_top_feeds_then_load (env : Env) (medium_instance : Medium)
      (topic_slug : string) (feed_mode : list string) (count : string)
      (cfg : gmap string string) (load_to_bq : bool) (w : world) :
  fetch_top_feeds env medium_instance topic_slug feed_mode count cfg load_to_bq w
  = then_load env cfg (fun top_feeds_df => [(top_feeds_df, "top_feeds_table")])
      (do today_date <- datetime_now_date env;
       lift (rfor_fold (top_feed_body medium_instance topic_slug count today_date)
                       feed_mode []))
      load_to_bq w.
Proof. reflexivity. Qed.




(** ** The configuration *)

(** C9, as the code has it: with loading on, credentials that cannot be
    built from the configured file (a missing [credentials_path] key is one
    such case: opening [None] raises) raise an error that leaves the load
    stage and the node before any load is attempted, with nothing logged;
    once the credentials are built nothing in the configuration is fatal: a
    missing [project], [dataset_id] or table key reads as [None], the
    destination is spelt with the text None in its place, and every load is
    attempted with it under its own boundary. *)
Theorem credentials_are_fatal_missing_names_are_not (env : Env) (cfg : gmap string string)
        (frames : list (DataFrame * string)) (w : world) :
  match from_service_account_file env (cfg !! "credentials_path") with
  | inl e =>
      load_to_bigquery env cfg frames w = (inl e, w)
      /\ (forall users, fst (extract_users env users cfg true w) = inl e
                        /\ bq_calls (snd (extract_users env users cfg true w)) = bq_calls w)
      /\ (forall medium_instance users_articles fr,
             rfor_fold (article_body medium_instance users_articles)
                       users_articles articles_frames0 = inr fr ->
             fetch_user_articles_info env medium_instance users_articles cfg true w
             = (inl e, w))
  | inr _ =>
      exists w', load_to_bigquery env cfg frames w = (inr tt, w')
        /\ map fst (bq_calls w')
           = map fst (bq_calls w) ++ map (fun '(_, key) => destination cfg key) frames
  end
  /\ from_service_account_file env None
     = inl (TypeError "expected str, bytes or os.PathLike object, not NoneType")
  /\ (forall key, cfg !! key = None ->
        destination cfg key
        = fstr (cfg !! "project") +:+ "." +:+ fstr (cfg !! "dataset_id") +:+ ".None").
Proof.
  split; [| split; [reflexivity |]].
  - destruct (from_service_account_file env (cfg !! "credentials_path")) as [e|creds] eqn:Hc.
    + split; [now rewrite load_to_bigquery_run, Hc |]. split.
      * intros users. rewrite extract_users_run. cbv zeta.
        rewrite load_to_bigquery_run, Hc. auto.
      * intros m df fr Hloop. unfold fetch_user_articles_info, bind, lift.
        rewrite Hloop. now rewrite load_to_bigquery_run, Hc.
    + rewrite load_to_bigquery_run, Hc.
      destruct (load_blocks_run env creds cfg frames w) as (w' & Hrun & _ & Hcalls & _).
      exists w'. split; [exact Hrun |]. rewrite Hcalls, map_app, map_map. f_equal.
      apply map_ext. intros [df key]. reflexivity.
  - intros key Hkey. unfold destination, destination_of. now rewrite Hkey.
Qed.

(** C9, as the specification words it, fails: with the credentials built and
    the keys [project] and [user_info_table] missing from the configuration,
    user extraction raises nothing and returns its frames, having attempted
    the five loads, the first one at the destination None.medium.None. *)
Lemma missing_table_key_is_not_fatal :
  exists fr w',
    extract_users env_ok [writer_a; writer_b]
                  (delete "project" (delete "user_info_table" users_config)) true world0
    = (inr fr, w')
    /\ map fst (bq_calls w')
       = [ "None.medium.None"; "None.medium.users_top_writer_in";
           "None.medium.user_followers"; "None.medium.user_followings";
           "None.medium.users_articles" ].
Proof. eexists. eexists. split; vm_compute; reflexivity. Qed.

(** ** The loops without a boundary: articles and publications *)

Lemma fetch_user_articles_info_raises (env : Env) (medium_instance : Medium)
      (users_articles : DataFrame) (cfg : gmap string string) (load_to_bq : bool)
      (w : world) (e : exception) :
  rfor_fold (article_body medium_instance users_articles) users_articles articles_frames0
  = inl e ->
  fetch_user_articles_info env medium_instance users_articles cfg load_to_bq w = (inl e, w).
Proof. intros H. unfold fetch_user_articles_info, bind, lift. now rewrite H. Qed.

Lemma fetch_publications_info_raises (env : Env) (medium_instance : Medium)
      (topic_slug : string) (cfg : gmap string string) (load_to_bq : bool)
      (w : world) (publications : list Publication) (e : exception) :
  Medium_search_publications medium_instance topic_slug = inr publications ->
  rfor_fold publication_body publications publications_frames0 = inl e ->
  fetch_publications_info env medium_instance topic_slug cfg load_to_bq w = (inl e, w).
Proof. intros Hs H. unfold fetch_publications_info, bind, lift. now rewrite Hs, H. Qed.

(** A publication whose tag list is empty: the counter stays empty and
    indexing [most_common(1)] raises. *)
Lemma publication_body_no_tags (fr : publications_frames) (publication : Publication)
      (info : dict) (description : string) (article_ids : list string) :
  Publication_info publication = inr info ->
  info !! "tags" = Some (VList []) ->
  info !! "description" = Some (VScalar (SStr description)) ->
  Publication_articles publication = inr article_ids ->
  publication_body fr publication = inl (IndexError "list index out of range").
Proof.
  intros Hinfo Htags Hdesc Harts. unfold publication_body, dict_pop, dict_getitem.
  rewrite Hinfo. simpl. rewrite Harts. simpl.
  rewrite !lookup_delete_ne by discriminate. rewrite Hdesc, Htags. reflexivity.
Qed.

(** C4, as the code has it: called with an empty tag sequence the
    computation of the most relevant tag raises (an [IndexError]), whatever
    the description; in the publication node nothing catches it, so it leaves
    the node: the whole publication extraction fails with that error, no
    frame is returned for any publication, nothing is logged and no load is
    attempted. *)
Theorem empty_tags_raise_out_of_the_node (env : Env) (cfg : gmap string string)
        (load_to_bq : bool) (w : world) :
  (forall description,
      most_relevant_tag description [] = inl (IndexError "list index out of range"))
  /\ (forall medium_instance topic_slug before publication after fr
             info description article_ids,
         Medium_search_publications medium_instance topic_slug
         = inr (before ++ publication :: after) ->
         rfor_fold publication_body before publications_frames0 = inr fr ->
         Publication_info publication = inr info ->
         info !! "tags" = Some (VList []) ->
         info !! "description" = Some (VScalar (SStr description)) ->
         Publication_articles publication = inr article_ids ->
         fetch_publications_info env medium_instance topic_slug cfg load_to_bq w
         = (inl (IndexError "list index out of range"), w)).
Proof.
  split; [reflexivity |].
  intros m slug before p after fr info d ids Hs Hbefore Hinfo Htags Hdesc Harts.
  apply (fetch_publications_info_raises _ _ _ _ _ _ _ _ Hs).
  apply (rfor_fold_raises _ _ _ _ _ _ _ Hbefore).
  eapply publication_body_no_tags; eassumption.
Qed.

Lemma empty_tags_raise_out_of_the_node_witness :
  fetch_publications_info env_ok medium_double "ai" users_config false world0
  = (inl (IndexError "list index out of range"), world0).
Proof.
  apply (proj2 (empty_tags_raise_out_of_the_node env_ok users_config false world0)
               medium_double "ai" [publication_1] publication_untagged [publication_3]
               (match rfor_fold publication_body [publication_1] publications_frames0 with
                | inr fr => fr | inl _ => publications_frames0 end)
               {[ "id" := str "p2"; "description" := str "hello world"; "tags" := VList [] ]}
               "hello world" []);
    reflexivity.
Defined.

(** C4, as the specification words it, fails: with a tagged publication
    before and after the untagged one, the node returns no frame at all (not
    the frames of the two tagged publications) and logs nothing. *)
Lemma empty_tags_are_not_a_per_publication_failure :
  fst (fetch_publications_info env_ok medium_double "ai" users_config false world0)
  = inl (IndexError "list index out of range")
  /\ log (snd (fetch_publications_info env_ok medium_double "ai" users_config false world0))
     = []
  /\ exists fr, rfor_fold publication_body [publication_1; publication_3] publications_frames0
                = inr fr
                /\ length (publication_info_df fr) = 2.
Proof.
  split; [vm_compute; reflexivity |]. split; [vm_compute; reflexivity |].
  eexists. split; vm_compute; reflexivity.
Qed.




(** ** [fetch_top_feeds]: the capture date *)

Lemma is_digit_digit (n : nat) : is_digit (digit n) = true.
Proof.
  unfold digit. pose proof (Nat.mod_upper_bound n 10) as H.
  destruct (n mod 10) as [|[|[|[|[|[|[|[|[|[|k]]]]]]]]]]; try reflexivity. lia.
Qed.

Lemma strftime_Ymd_shape (d : date) : is_Ymd (strftime_Ymd d) = true.
Proof. unfold strftime_Ymd, is_Ymd. now rewrite !is_digit_digit. Qed.

(** [explode] leaves the other columns of a row as they are. *)
Lemma explode_row_other (col c : string) (r : dict) :
  col <> c -> Forall (fun r' => r' !! c = r !! c) (explode_row col r).
Proof.
  intros Hne. unfold explode_row.
  destruct (r !! col) as [[s|[|x l]]|]; repeat constructor;
    try (now rewrite lookup_insert_ne by assumption).
  apply Forall_forall. intros r' Hr'. apply list_elem_of_In, in_map_iff in Hr'.
  destruct Hr' as (y & <- & _). now rewrite lookup_insert_ne by assumption.
Qed.

Lemma top_feed_body_dates (medium_instance : Medium) (topic_slug count : string)
      (today_date : date) (df df' : DataFrame) (feed : string) :
  top_feed_body medium_instance topic_slug count today_date df feed = inr df' ->
  Forall (captured_on today_date) df -> Forall (captured_on today_date) df'.
Proof.
  unfold top_feed_body. intros H Hdf.
  destruct (Medium_topfeeds medium_instance topic_slug count feed) as [e|articles];
    [discriminate |]. simpl in H.
  destruct (TopFeeds_ids articles) as [e|ids]; [discriminate |]. simpl in H.
  injection H as <-. apply Forall_app. split; [exact Hdf |].
  unfold explode. simpl. rewrite app_nil_r.
  eapply Forall_impl; [apply (explode_row_other "article_id" "captured_on_date"); discriminate |].
  intros r' Hr'. unfold captured_on. rewrite Hr'.
  rewrite lookup_insert_ne by discriminate. now rewrite lookup_insert_eq.
Qed.

Lemma top_feed_loop_dates (medium_instance : Medium) (topic_slug count : string)
      (today_date : date) (feed_mode : list string) (df df' : DataFrame) :
  rfor_fold (top_feed_body medium_instance topic_slug count today_date) feed_mode df = inr df' ->
  Forall (captured_on today_date) df -> Forall (captured_on today_date) df'.
Proof.
  revert df. induction feed_mode as [|feed modes IH]; intros df H Hdf; simpl in H.
  - now injection H as <-.
  - destruct (top_feed_body _ _ _ _ df feed) as [e|df1] eqn:Hstep; [discriminate |].
    simpl in H. eauto using top_feed_body_dates.
Qed.

(** C10: one call of top-feed extraction reads the clock once, before the
    loop over the feed modes, whatever their number; every row of the frame it
    returns carries that one reading as [captured_on_date], spelt
    YYYY-MM-DD. *)
Theorem top_feed_rows_share_one_date (env : Env) (medium_instance : Medium)
        (topic_slug : string) (feed_mode : list string) (count : string)
        (cfg : gmap string string) (load_to_bq : bool) (w w' : world)
        (top_feeds_df : DataFrame) :
  fetch_top_feeds env medium_instance topic_slug feed_mode count cfg load_to_bq w
  = (inr top_feeds_df, w') ->
  Forall (captured_on (datetime_now env (clock_reads w))) top_feeds_df
  /\ clock_reads w' = S (clock_reads w)
  /\ is_Ymd (strftime_Ymd (datetime_now env (clock_reads w))) = true.
Proof.
  intros H. split; [| split; [| apply strftime_Ymd_shape]].
  - unfold fetch_top_feeds, bind, lift, datetime_now_date, ret in H.
    destruct (rfor_fold (top_feed_body medium_instance topic_slug count
                                       (datetime_now env (clock_reads w))) feed_mode [])
      as [e|df] eqn:Hloop; [discriminate |].
    assert (df = top_feeds_df) as <-.
    { destruct load_to_bq; [| now inversion H].
      destruct (load_to_bigquery _ _ _ _) as [[e|[]] w2]; now inversion H. }
    eapply top_feed_loop_dates; [exact Hloop | constructor].
  - unfold fetch_top_feeds, bind, lift, datetime_now_date, ret in H.
    destruct (rfor_fold (top_feed_body medium_instance topic_slug count
                                       (datetime_now env (clock_reads w))) feed_mode [])
      as [e|df] eqn:Hloop; [discriminate |].
    destruct load_to_bq.
    + rewrite load_to_bigquery_run in H.
      destruct (from_service_account_file _ _) as [e|creds]; [discriminate |].
      match type of H with
      | context [for_fold ?b ?l tt ?w0] =>
          destruct (load_blocks_run env creds cfg l w0) as (w2 & Hrun & (_ & _ & Hclock) & _)
      end.
      rewrite Hrun in H. injection H as _ <-. exact Hclock.
    + now injection H as _ <-.
Qed.

(** Two feed modes, the second with no article: three rows, all dated by the
    first reading of the clock. *)
Lemma top_feed_rows_share_one_date_witness :
  fetch_top_feeds env_ok medium_double "ai" ["hot"; "new"] "10" users_config false world0
  = (inr [ {[ "feed_mode" := str "hot"; "captured_on_date" := str "2024-03-09";
              "article_id" := str "a1" ]};
           {[ "feed_mode" := str "hot"; "captured_on_date" := str "2024-03-09";
              "article_id" := str "a3" ]};
           {[ "feed_mode" := str "new"; "captured_on_date" := str "2024-03-09";
              "article_id" := VScalar SNaN ]} ],
     {| log := []; bq_calls := []; bq_tables := ∅; clock_reads := 1 |})
  /\ Forall (captured_on (datetime_now env_ok 0))
            [ {[ "feed_mode" := str "hot"; "captured_on_date" := str "2024-03-09";
                 "article_id" := str "a1" ]};
              {[ "feed_mode" := str "hot"; "captured_on_date" := str "2024-03-09";
                 "article_id" := str "a3" ]};
              {[ "feed_mode" := str "new"; "captured_on_date" := str "2024-03-09";
                 "article_id" := VScalar SNaN ]} ].
Proof.
  assert (H : fetch_top_feeds env_ok medium_double "ai" ["hot"; "new"] "10" users_config
                              false world0
              = (inr [ {[ "feed_mode" := str "hot"; "captured_on_date" := str "2024-03-09";
                          "article_id" := str "a1" ]};
                       {[ "feed_mode" := str "hot"; "captured_on_date" := str "2024-03-09";
                          "article_id" := str "a3" ]};
                       {[ "feed_mode" := str "new"; "captured_on_date" := str "2024-03-09";
                          "article_id" := VScalar SNaN ]} ],
                 {| log := []; bq_calls := []; bq_tables := ∅; clock_reads := 1 |}))
    by reflexivity.
  split; [exact H |].
  exact (proj1 (top_feed_rows_share_one_date env_ok medium_double "ai" ["hot"; "new"] "10"
                  users_config false world0 _ _ H)).
Defined.

(** * Further properties of the nodes *)

(** ** Relation rows *)

Lemma relation_frame_list (p c : string) (parent : value) (x : string) (l : list string) :
  relation_frame p parent c (VList (x :: l))
  = map (fun y => <[c := VScalar (SStr y)]> (<[p := parent]> ∅)) (x :: l).
Proof.
  unfold relation_frame, explode, explode_row. cbn [flat_map].
  rewrite lookup_insert_eq, app_nil_r.
  apply map_ext. intros y. apply insert_insert_eq.
Qed.


Lemma relation_frame_parent (p c : string) (parent child : value) :
  p <> c -> Forall (fun row => row !! p = Some parent) (relation_frame p parent c child).
Proof.
  intros Hne. unfold relation_frame, explode. cbn [flat_map]. rewrite app_nil_r.
  eapply Forall_impl; [apply (explode_row_other c p); congruence |].
  intros row ->. cbn beta. rewrite lookup_insert_ne by congruence. apply lookup_insert_eq.
Qed.

(** X1: the guarded pattern [if child: ... explode ...] on a list adds one
    row per element, in the order of the list, each pairing the [id] of the
    info with the element; for an empty list it adds nothing and does not
    read the [id]; for a non-empty list on an info without [id] it raises
    [KeyError]. *)
Theorem append_relation_list_rows (df : DataFrame) (info : dict)
        (parent_col child_col : string) (l : list string) :
  append_relation df info parent_col child_col (VList l)
  = match l, info !! "id" with
    | [], _ => inr df
    | _ :: _, Some id =>
        inr (df ++ map (fun x => <[child_col := VScalar (SStr x)]> (<[parent_col := id]> ∅)) l)
    | _ :: _, None => inl (KeyError "id")
    end.
Proof.
  destruct l as [|x l]; [reflexivity |].
  unfold append_relation, dict_getitem. cbn [truthy].
  destruct (info !! "id") as [id|]; [| reflexivity].
  cbn [rbind]. unfold pd_concat. now rewrite relation_frame_list.
Qed.

Lemma length_flat_map_sum {A B} (f : A -> list B) (l : list A) :
  length (flat_map f l) = list_sum (map (fun a => length (f a)) l).
Proof. induction l as [|a l IH]; simpl; [reflexivity | now rewrite length_app, IH]. Qed.


(** The frames a user extraction that returned has built. *)
Lemma extract_users_returned (env : Env) (users : list User) (cfg : gmap string string)
      (load_to_bq : bool) (w w' : world) (fr : users_frames) :
  extract_users env users cfg load_to_bq w = (inr fr, w') ->
  fr = fold_left add_user users users_frames0.
Proof.
  rewrite extract_users_run. cbv zeta. destruct load_to_bq.
  - destruct (load_to_bigquery _ _ _ _) as [[e|[]] w2]; [discriminate |].
    now intros [= <- _].
  - now intros [= <- _].
Qed.




Lemma user_relation_rows_parent (user : User) (child_col : string) (ids : result value) :
  "user_id" <> child_col ->
  Forall (fun row => row !! "user_id" = Some (user_key user))
         (user_relation_rows user child_col ids).
Proof.
  intros Hne. destruct ids; [constructor | now apply relation_frame_parent].
Qed.

Lemma Forall_flat_map_In {A B} (P : B -> Prop) (f : A -> list B) (l : list A) :
  (forall a, In a l -> Forall P (f a)) -> Forall P (flat_map f l).
Proof.
  induction l as [|a l IH]; intros H; simpl; [constructor |].
  apply Forall_app. split; [apply H; now left | apply IH; intros; apply H; now right].
Qed.

(** X3: every row of the followers, following and article frames of user
    extraction carries, as [user_id], the identifier of one of the writers
    given: a parent identifier is never missing and never null, whatever the
    child cell is. *)
Theorem extract_users_rows_have_a_parent (env : Env) (users : list User)
        (cfg : gmap string string) (w : world) :
  exists fr w',
    extract_users env users cfg false w = (inr fr, w')
    /\ Forall (fun row => exists u, In u users /\ row !! "user_id" = Some (str (User_id u)))
              (user_followers_df fr ++ user_followings_df fr ++ users_articles_df fr).
Proof.
  eexists. eexists. split; [rewrite extract_users_run; reflexivity |].
  rewrite fold_add_user. cbn [user_followers_df user_followings_df users_articles_df
                              users_frames0 app].
  repeat (apply Forall_app; split); apply Forall_flat_map_In; intros u Hu;
    (eapply Forall_impl; [apply user_relation_rows_parent; discriminate |]);
    intros row Hrow; exists u; auto.
Qed.

(** ** What the loops without a boundary build *)

(** Looks a key up through the inserts and deletes of literal keys. *)
Ltac map_lookup :=
  repeat first [ rewrite lookup_delete_eq
               | rewrite lookup_insert_eq
               | rewrite lookup_delete_ne by discriminate
               | rewrite lookup_insert_ne by discriminate ].

(** Reads a chain of [doR] that returned: every step returned. *)
Ltac rbind_inv H :=
  repeat (cbn beta iota zeta in H;
          match type of H with
          | rbind ?r _ = inr _ =>
              let E := fresh "E" in
              destruct r eqn:E; [discriminate H | cbn [rbind] in H]
          end).

Lemma rfor_fold_invariant {X Acc} (P : Acc -> Prop) (body : Acc -> X -> result Acc)
      (l : list X) (acc acc' : Acc) :
  (forall a x a', In x l -> body a x = inr a' -> P a -> P a') ->
  rfor_fold body l acc = inr acc' -> P acc -> P acc'.
Proof.
  revert acc. induction l as [|x l IH]; intros acc Hstep H Hacc; simpl in H.
  - now injection H as <-.
  - destruct (body acc x) as [e|a] eqn:Hx; [discriminate |]. simpl in H.
    apply (IH a); eauto using in_cons. eapply Hstep; eauto. now left.
Qed.

(** A node that returned got its frames from its extraction. *)
Lemma then_load_returned {A} (env : Env) (cfg : gmap string string)
      (load_list : A -> list (DataFrame * string)) (extraction : M A)
      (load_to_bq : bool) (w w' : world) (fr : A) :
  then_load env cfg load_list extraction load_to_bq w = (inr fr, w') ->
  exists w1, extraction w = (inr fr, w1).
Proof.
  unfold then_load, bind, ret. destruct (extraction w) as [[e|fr1] w1]; [discriminate |].
  destruct load_to_bq.
  - destruct (load_to_bigquery _ _ _ _) as [[e|[]] w2]; intros [= <- <-]; eauto.
  - intros [= <- <-]. eauto.
Qed.

Lemma fetch_user_articles_info_returned (env : Env) (medium_instance : Medium)
      (users_articles : DataFrame) (cfg : gmap string string) (load_to_bq : bool)
      (w w' : world) (fr : articles_frames) :
  fetch_user_articles_info env medium_instance users_articles cfg load_to_bq w = (inr fr, w') ->
  rfor_fold (article_body medium_instance users_articles) users_articles articles_frames0
  = inr fr.
Proof.
  intros H. apply (then_load_returned env cfg articles_load_list) in H.
  destruct H as [w1 H]. unfold lift in H. now injection H.
Qed.

(** A comment touches the three comment frames only, and its info row
    carries the article's identifier and neither [tags] nor [topics]. *)
Lemma comment_body_frames (article_id : value) (fr fr' : articles_frames) (comment : Comment) :
  comment_body article_id fr comment = inr fr' ->
  articles_info_df fr' = articles_info_df fr
  /\ article_tags_df fr' = article_tags_df fr
  /\ article_topics_df fr' = article_topics_df fr
  /\ article_fans_id_df fr' = article_fans_id_df fr
  /\ article_related_articles_ids_df fr' = article_related_articles_ids_df fr
  /\ exists row, articles_comments_info_df fr' = articles_comments_info_df fr ++ [row]
                 /\ row !! "article_id" = Some article_id
                 /\ row !! "tags" = None /\ row !! "topics" = None.
Proof.
  intros H. unfold comment_body, dict_pop in H. rbind_inv H. injection H as <-.
  cbn. repeat split; try reflexivity. eexists. split; [reflexivity |].
  repeat split; map_lookup; reflexivity.
Qed.

Lemma comment_loop_frames (article_id : value) (comments : list Comment)
      (fr fr' : articles_frames) :
  rfor_fold (comment_body article_id) comments fr = inr fr' ->
  articles_info_df fr' = articles_info_df fr
  /\ exists rows, articles_comments_info_df fr' = articles_comments_info_df fr ++ rows
                  /\ Forall (fun row => row !! "article_id" = Some article_id
                                        /\ row !! "tags" = None /\ row !! "topics" = None)
                            rows.
Proof.
  revert fr. induction comments as [|c comments IH]; intros fr H; simpl in H.
  - injection H as <-. split; [reflexivity |]. exists []. now rewrite app_nil_r.
  - destruct (comment_body article_id fr c) as [e|fr1] eqn:Hc; [discriminate |].
    simpl in H. apply comment_body_frames in Hc.
    destruct Hc as (Hi & _ & _ & _ & _ & row & Hrow & Hcells).
    destruct (IH _ H) as (Hi' & rows & Hrows & Hall).
    split; [congruence |]. exists (row :: rows). split.
    + rewrite Hrows, Hrow, <- app_assoc. reflexivity.
    + constructor; assumption.
Qed.

(** What one article adds: one info row, without the four popped keys and
    with the three fetched attributes, and the rows of its comments, each
    carrying the [article_id] cell of the row being processed. *)
Lemma article_body_frames (medium_instance : Medium) (users_articles : DataFrame)
      (fr fr' : articles_frames) (row : dict) :
  article_body medium_instance users_articles fr row = inr fr' ->
  (exists info_row,
      articles_info_df fr' = articles_info_df fr ++ [info_row]
      /\ info_row !! "tags" = None /\ info_row !! "topics" = None
      /\ info_row !! "fans_ids" = None /\ info_row !! "related_articles_ids" = None
      /\ is_Some (info_row !! "is_self_published")
      /\ is_Some (info_row !! "content") /\ is_Some (info_row !! "markdown"))
  /\ exists rows,
       articles_comments_info_df fr' = articles_comments_info_df fr ++ rows
       /\ Forall (fun r => r !! "article_id"
                           = Some (default (VScalar SNaN) (row !! "article_id"))
                           /\ r !! "tags" = None /\ r !! "topics" = None) rows.
Proof.
  intros H. unfold article_body, dict_pop, df_cell in H.
  destruct (df_has_column users_articles "article_id"); [| discriminate].
  cbn [rbind] in H. rbind_inv H.
  apply comment_loop_frames in H. cbn in H. destruct H as (Hi & rows & Hrows & Hall).
  split.
  - eexists. split; [exact Hi |]. repeat split; map_lookup; eauto.
  - exists rows. auto.
Qed.

Lemma article_loop_frames (medium_instance : Medium) (users_articles rows : DataFrame)
      (fr fr' : articles_frames) :
  rfor_fold (article_body medium_instance users_articles) rows fr = inr fr' ->
  (exists info_rows,
      articles_info_df fr' = articles_info_df fr ++ info_rows
      /\ length info_rows = length rows
      /\ Forall (fun r => r !! "tags" = None /\ r !! "topics" = None
                          /\ r !! "fans_ids" = None /\ r !! "related_articles_ids" = None
                          /\ is_Some (r !! "is_self_published")
                          /\ is_Some (r !! "content") /\ is_Some (r !! "markdown"))
                info_rows)
  /\ exists comment_rows,
       articles_comments_info_df fr' = articles_comments_info_df fr ++ comment_rows
       /\ Forall (fun r => (exists row, In row rows
                              /\ r !! "article_id"
                                 = Some (default (VScalar SNaN) (row !! "article_id")))
                           /\ r !! "tags" = None /\ r !! "topics" = None) comment_rows.
Proof.
  revert fr. induction rows as [|row rows IH]; intros fr H; simpl in H.
  - injection H as <-. split; [exists [] | exists []]; rewrite app_nil_r; auto.
  - destruct (article_body medium_instance users_articles fr row) as [e|fr1] eqn:Hrow;
      [discriminate |]. simpl in H.
    apply article_body_frames in Hrow.
    destruct Hrow as ((info_row & Hi & Hcells) & (crows & Hc & Hcall)).
    destruct (IH _ H) as ((info_rows & Hi' & Hlen & Hall) & (crows' & Hc' & Hcall')).
    split.
    + exists (info_row :: info_rows). split; [| split].
      * rewrite Hi', Hi, <- app_assoc. reflexivity.
      * simpl. now rewrite Hlen.
      * constructor; assumption.
    + exists (crows ++ crows'). split.
      * rewrite Hc', Hc, <- app_assoc. reflexivity.
      * apply Forall_app. split.
        -- eapply Forall_impl; [exact Hcall |]. intros r (Ha & Ht). split; [| exact Ht].
           exists row. split; [now left | exact Ha].
        -- eapply Forall_impl; [exact Hcall' |]. intros r ((row' & Hin & Ha) & Ht).
           split; [| exact Ht]. exists row'. split; [now right | exact Ha].
Qed.

(** X4: when the article node returns, its info frame has exactly one row
    per row of the frame it was given, and no info row holds the popped keys
    [tags], [topics], [fans_ids], [related_articles_ids], while every one
    holds the attributes fetched besides the info: [is_self_published],
    [content], [markdown]. *)
Theorem article_info_rows_schema (env : Env) (medium_instance : Medium)
        (users_articles : DataFrame) (cfg : gmap string string) (load_to_bq : bool)
        (w w' : world) (fr : articles_frames) :
  fetch_user_articles_info env medium_instance users_articles cfg load_to_bq w = (inr fr, w') ->
  length (articles_info_df fr) = length users_articles
  /\ Forall (fun r => r !! "tags" = None /\ r !! "topics" = None
                      /\ r !! "fans_ids" = None /\ r !! "related_articles_ids" = None
                      /\ is_Some (r !! "is_self_published")
                      /\ is_Some (r !! "content") /\ is_Some (r !! "markdown"))
            (articles_info_df fr).
Proof.
  intros H. apply fetch_user_articles_info_returned, article_loop_frames in H.
  destruct H as ((info_rows & -> & Hlen & Hall) & _). auto.
Qed.

Lemma article_info_rows_schema_witness :
  exists fr,
    fst (fetch_user_articles_info env_ok medium_double two_articles users_config false world0)
    = inr fr
    /\ length (articles_info_df fr) = 2
    /\ Forall (fun r => r !! "tags" = None /\ r !! "topics" = None
                        /\ r !! "fans_ids" = None /\ r !! "related_articles_ids" = None
                        /\ is_Some (r !! "is_self_published")
                        /\ is_Some (r !! "content") /\ is_Some (r !! "markdown"))
              (articles_info_df fr).
Proof.
  eexists. split; [reflexivity |].
  exact (article_info_rows_schema env_ok medium_double two_articles users_config false
           world0 _ _ eq_refl).
Defined.

(** X5: when the article node returns, every row of the comments frame
    carries as [article_id] the [article_id] cell of one of the rows the node
    was given (the key is injected by the node, over whatever the comment
    held), and holds neither [tags] nor [topics]. *)
Theorem comment_rows_carry_their_article (env : Env) (medium_instance : Medium)
        (users_articles : DataFrame) (cfg : gmap string string) (load_to_bq : bool)
        (w w' : world) (fr : articles_frames) :
  fetch_user_articles_info env medium_instance users_articles cfg load_to_bq w = (inr fr, w') ->
  Forall (fun r => (exists row, In row users_articles
                      /\ r !! "article_id"
                         = Some (default (VScalar SNaN) (row !! "article_id")))
                   /\ r !! "tags" = None /\ r !! "topics" = None)
         (articles_comments_info_df fr).
Proof.
  intros H. apply fetch_user_articles_info_returned, article_loop_frames in H.
  destruct H as (_ & (rows & -> & Hall)). exact Hall.
Qed.

Lemma comment_rows_carry_their_article_witness :
  exists fr,
    fst (fetch_user_articles_info env_ok medium_double two_articles users_config false world0)
    = inr fr
    /\ articles_comments_info_df fr = [ {[ "id" := str "c1"; "article_id" := str "a1" ]} ]
    /\ Forall (fun r => (exists row, In row two_articles
                           /\ r !! "article_id"
                              = Some (default (VScalar SNaN) (row !! "article_id")))
                        /\ r !! "tags" = None /\ r !! "topics" = None)
              (articles_comments_info_df fr).
Proof.
  eexists. split; [reflexivity |]. split; [reflexivity |].
  exact (comment_rows_carry_their_article env_ok medium_double two_articles users_config
           false world0 _ _ eq_refl).
Defined.

Lemma most_relevant_tag_In (description tag : string) (tags : list string) :
  most_relevant_tag description tags = inr tag -> In tag tags.
Proof.
  destruct tags as [|t ts]; [discriminate |]. intros H.
  destruct (most_relevant_tag_greatest description t ts) as (best & Hb & Hin & _).
  congruence.
Qed.

(** What one publication adds to the info frame. *)
Lemma publication_body_info (fr fr' : publications_frames) (publication : Publication) :
  publication_body fr publication = inr fr' ->
  exists info tags t,
    Publication_info publication = inr info
    /\ iter_tags (default (VScalar SNone) (info !! "tags")) = inr tags
    /\ In t tags
    /\ publication_info_df fr' = publication_info_df fr ++ [publication_row info t].
Proof.
  intros H. unfold publication_body, dict_pop in H. rbind_inv H.
  injection H as <-. eexists. eexists. eexists.
  split; [reflexivity |]. split; [eassumption |].
  split; [eapply most_relevant_tag_In; eassumption | reflexivity].
Qed.

Lemma publication_loop_info (publications : list Publication) (fr fr' : publications_frames) :
  rfor_fold publication_body publications fr = inr fr' ->
  exists rows,
    publication_info_df fr' = publication_info_df fr ++ rows
    /\ Forall2 (fun publication row =>
                  exists info tags t,
                    Publication_info publication = inr info
                    /\ iter_tags (default (VScalar SNone) (info !! "tags")) = inr tags
                    /\ In t tags
                    /\ row = publication_row info t)
               publications rows.
Proof.
  revert fr. induction publications as [|p ps IH]; intros fr H; simpl in H.
  - injection H as <-. exists []. rewrite app_nil_r. split; [reflexivity | constructor].
  - destruct (publication_body fr p) as [e|fr1] eqn:Hp; [discriminate |]. simpl in H.
    apply publication_body_info in Hp. destruct Hp as (info & tags & t & Hi & Ht & Hin & Hrow).
    destruct (IH _ H) as (rows & Hrows & Hall).
    exists (publication_row info t :: rows). split.
    + rewrite Hrows, Hrow, <- app_assoc. reflexivity.
    + constructor; [| exact Hall]. exists info, tags, t. auto.
Qed.

(** X6: when the publication node returns, its info frame holds, for each
    publication found and in the order found, exactly one row: the
    publication's info without [tags] and [editors] and with, as
    [most_relevant_tag], one of the publication's own tags. *)
Theorem publication_info_rows (env : Env) (medium_instance : Medium) (topic_slug : string)
        (cfg : gmap string string) (load_to_bq : bool) (w w' : world)
        (publications : list Publication) (fr : publications_frames) :
  Medium_search_publications medium_instance topic_slug = inr publications ->
  fetch_publications_info env medium_instance topic_slug cfg load_to_bq w = (inr fr, w') ->
  Forall2 (fun publication row =>
             exists info tags t,
               Publication_info publication = inr info
               /\ iter_tags (default (VScalar SNone) (info !! "tags")) = inr tags
               /\ In t tags
               /\ row = publication_row info t)
          publications (publication_info_df fr).
Proof.
  intros Hs H. rewrite fetch_publications_info_then_load in H.
  apply then_load_returned in H. destruct H as [w1 H].
  unfold bind, lift in H. rewrite Hs in H. injection H as H _.
  apply publication_loop_info in H. destruct H as (rows & -> & Hall). exact Hall.
Qed.

Lemma publication_info_rows_witness :
  exists fr,
    fst (fetch_publications_info env_ok medium_feed_down "ai" users_config false world0)
    = inr fr
    /\ map (fun row => row !! "most_relevant_tag") (publication_info_df fr)
       = [Some (str "data"); Some (str "xyz")]
    /\ Forall2 (fun publication row =>
                  exists info tags t,
                    Publication_info publication = inr info
                    /\ iter_tags (default (VScalar SNone) (info !! "tags")) = inr tags
                    /\ In t tags
                    /\ row = publication_row info t)
               [publication_1; publication_3] (publication_info_df fr).
Proof.
  eexists. split; [reflexivity |]. split; [vm_compute; reflexivity |].
  exact (publication_info_rows env_ok medium_feed_down "ai" users_config false world0 _
           [publication_1; publication_3] _ eq_refl eq_refl).
Defined.

(** ** The warehouse *)

Lemma load_blocks_accepting (env : Env) (creds : credentials env) (cfg : gmap string string)
      (frames : list (DataFrame * string)) (w : world) :
  accepts_all env creds ->
  exists w',
    for_fold (load_block env creds cfg) frames tt w = (inr tt, w')
    /\ log w' = log w
    /\ forall d, default [] (bq_tables w' !! d)
                 = default [] (bq_tables w !! d) ++ rows_for cfg frames d.
Proof.
  intros Hacc. revert w. induction frames as [|[df key] frames IH]; intros w.
  - exists w. split; [reflexivity |]. split; [reflexivity |].
    intros d. unfold rows_for. simpl. now rewrite app_nil_r.
  - cbn [for_fold]. unfold bind.
    change (load_block env creds cfg tt (df, key) w)
      with (load_table env creds (cfg !! "project") (cfg !! "dataset_id") (df, cfg !! key) w).
    rewrite load_table_run. fold (destination cfg key). rewrite Hacc.
    destruct (IH (append_rows (add_call w (destination cfg key) df) (destination cfg key) df))
      as (w' & Hrun & Hlog & Hrows).
    exists w'. split; [exact Hrun |]. split; [rewrite Hlog; reflexivity |].
    intros d. rewrite Hrows. unfold rows_for. cbn [flat_map fst snd append_rows add_call bq_tables].
    destruct (String.eqb_spec (destination cfg key) d) as [<-|Hne].
    + rewrite lookup_insert_eq. simpl. now rewrite <- app_assoc.
    + rewrite lookup_insert_ne by assumption. reflexivity.
Qed.

(** What the [if_exists] argument decides: an accepted call in mode
    [append] leaves the rows held followed by the frame, in mode [replace] the
    frame alone, and mode [fail] raises on a table that exists. *)
Lemma to_gbq_if_exists (env : Env) (creds : credentials env) (d : string)
      (df : DataFrame) (w : world) :
  to_gbq_error env creds d df (bq_tables w) = None ->
  bq_tables (snd (to_gbq env df d if_exists_append creds w)) !! d
  = Some (default [] (bq_tables w !! d) ++ df)
  /\ bq_tables (snd (to_gbq env df d if_exists_replace creds w)) !! d = Some df
  /\ (is_Some (bq_tables w !! d) ->
      exists e, to_gbq env df d if_exists_fail creds w = (inl e, add_call w d df)).
Proof.
  intros Hok. unfold to_gbq. rewrite Hok. cbn. rewrite !lookup_insert_eq.
  repeat split. intros [rows ->]. eauto.
Qed.

(** X7: every load block passes [if_exists="append"], so loading appends
    and never replaces. With credentials built and a warehouse that refuses
    nothing, one load stage leaves in every destination what it held followed
    by the rows of the frames sent to it, in block order; running the stage a
    second time on the same frames leaves those rows twice. *)
Theorem load_twice_duplicates_rows (env : Env) (cfg : gmap string string)
        (frames : list (DataFrame * string)) (creds : credentials env) (w : world) :
  from_service_account_file env (cfg !! "credentials_path") = inr creds ->
  accepts_all env creds ->
  exists w1 w2,
    load_to_bigquery env cfg frames w = (inr tt, w1)
    /\ load_to_bigquery env cfg frames w1 = (inr tt, w2)
    /\ log w2 = log w
    /\ forall d,
         default [] (bq_tables w1 !! d)
         = default [] (bq_tables w !! d) ++ rows_for cfg frames d
         /\ default [] (bq_tables w2 !! d)
            = default [] (bq_tables w !! d) ++ rows_for cfg frames d ++ rows_for cfg frames d.
Proof.
  intros Hc Hacc.
  destruct (load_blocks_accepting env creds cfg frames w Hacc) as (w1 & H1 & Hl1 & Hr1).
  destruct (load_blocks_accepting env creds cfg frames w1 Hacc) as (w2 & H2 & Hl2 & Hr2).
  exists w1, w2. rewrite !load_to_bigquery_run, Hc.
  split; [exact H1 |]. split; [exact H2 |]. split; [congruence |].
  intros d. split; [apply Hr1 |]. now rewrite Hr2, Hr1, <- app_assoc.
Qed.

Lemma load_twice_duplicates_rows_witness :
  exists w1 w2,
    load_to_bigquery env_accepting users_config
      (users_load_list (fold_left add_user [writer_a] users_frames0)) world0 = (inr tt, w1)
    /\ load_to_bigquery env_accepting users_config
         (users_load_list (fold_left add_user [writer_a] users_frames0)) w1 = (inr tt, w2)
    /\ default [] (bq_tables w2 !! "proj.medium.user_followings")
       = [ {[ "user_id" := str "u1"; "following_id" := str "g1" ]};
           {[ "user_id" := str "u1"; "following_id" := str "g1" ]} ].
Proof.
  destruct (load_twice_duplicates_rows env_accepting users_config
              (users_load_list (fold_left add_user [writer_a] users_frames0)) tt world0
              eq_refl (fun _ _ _ => eq_refl))
    as (w1 & w2 & H1 & H2 & _ & Hrows).
  exists w1, w2. split; [exact H1 |]. split; [exact H2 |].
  rewrite (proj2 (Hrows "proj.medium.user_followings")). reflexivity.
Defined.

Lemma extends_only_appends (w w' : world) : extends w w' -> only_appends w w'.
Proof. intros (Hl & Ht & _). split; assumption. Qed.

Lemma load_to_bigquery_extends (env : Env) (cfg : gmap string string)
      (frames : list (DataFrame * string)) (w : world) :
  extends w (snd (load_to_bigquery env cfg frames w)).
Proof.
  rewrite load_to_bigquery_run.
  destruct (from_service_account_file env (cfg !! "credentials_path")) as [e|creds].
  - apply extends_refl.
  - destruct (load_blocks_run env creds cfg frames w) as (w' & -> & Hext & _). exact Hext.
Qed.

Lemma then_load_only_appends {A} (env : Env) (cfg : gmap string string)
      (load_list : A -> list (DataFrame * string)) (extraction : M A)
      (load_to_bq : bool) (w : world) :
  only_appends w (snd (extraction w)) ->
  only_appends w (snd (then_load env cfg load_list extraction load_to_bq w)).
Proof.
  intros Hext. unfold then_load, bind, ret.
  destruct (extraction w) as [[e|fr] w1]; [exact Hext |]. cbn [snd] in Hext.
  destruct load_to_bq; [| exact Hext].
  pose proof (load_to_bigquery_extends env cfg (load_list fr) w1) as Hload.
  destruct (load_to_bigquery env cfg (load_list fr) w1) as [[e|[]] w2]; cbn [snd] in *;
    apply extends_only_appends in Hload;
    destruct Hext as ([l1 Hl1] & Ht1), Hload as ([l2 Hl2] & Ht2);
    (split; [exists (l1 ++ l2); now rewrite Hl2, Hl1, app_assoc |]);
    intros d rows Hd; destruct (Ht1 d rows Hd) as [m1 Hm1];
    destruct (Ht2 d _ Hm1) as [m2 Hm2]; exists (m1 ++ m2); now rewrite Hm2, app_assoc.
Qed.

Lemma only_appends_refl (w : world) : only_appends w w.
Proof. apply extends_only_appends, extends_refl. Qed.

(** X8: no node ever removes or rewrites anything (its only calls to the
    warehouse are in mode [append], its only use of the log is
    [logger.error]). Whatever a node does
    (return or raise, flag on or off, loads accepted or refused), the log
    after it is the log before it with messages added, and every warehouse
    table that existed before still holds its rows, in order, before any new
    ones. *)
Theorem nodes_only_append (env : Env) (cfg : gmap string string) (load_to_bq : bool)
        (w : world) :
  (forall users, only_appends w (snd (extract_users env users cfg load_to_bq w)))
  /\ (forall medium_instance users_articles,
         only_appends w (snd (fetch_user_articles_info env medium_instance users_articles
                                                       cfg load_to_bq w)))
  /\ (forall medium_instance topic_slug,
         only_appends w (snd (fetch_publications_info env medium_instance topic_slug
                                                      cfg load_to_bq w)))
  /\ (forall medium_instance topic_slug feed_mode count,
         only_appends w (snd (fetch_top_feeds env medium_instance topic_slug feed_mode count
                                              cfg load_to_bq w))).
Proof.
  split; [| split; [| split]].
  - intros users. apply (then_load_only_appends env cfg users_load_list).
    rewrite extract_user_loop. split; cbn; eauto. intros d rows H. exists [].
    now rewrite app_nil_r.
  - intros m df. apply (then_load_only_appends env cfg articles_load_list).
    apply only_appends_refl.
  - intros m slug. rewrite fetch_publications_info_then_load.
    apply then_load_only_appends. unfold bind, lift.
    destruct (Medium_search_publications m slug); apply only_appends_refl.
  - intros m slug modes count. rewrite fetch_top_feeds_then_load.
    apply then_load_only_appends. unfold bind, lift, datetime_now_date. cbn.
    split; cbn; [exists []; now rewrite app_nil_r |].
    intros d rows H. exists []. now rewrite app_nil_r.
Qed.

(** ** [fetch_top_feeds]: the rows of the feeds *)

Lemma explode_row_nonempty (col : string) (r : dict) : 1 <= length (explode_row col r).
Proof.
  unfold explode_row. destruct (r !! col) as [[s|[|x l]]|]; simpl; lia.
Qed.

Lemma top_feed_body_rows (medium_instance : Medium) (topic_slug count : string)
      (today_date : date) (df df' : DataFrame) (feed : string) :
  top_feed_body medium_instance topic_slug count today_date df feed = inr df' ->
  exists rows, df' = df ++ rows /\ 1 <= length rows
               /\ Forall (fun row => row !! "feed_mode" = Some (str feed)) rows.
Proof.
  unfold top_feed_body. intros H. rbind_inv H. injection H as <-.
  eexists. split; [reflexivity |]. unfold explode. cbn [flat_map]. rewrite app_nil_r.
  split; [apply explode_row_nonempty |].
  eapply Forall_impl; [apply (explode_row_other "article_id" "feed_mode"); discriminate |].
  intros row ->. cbn beta. now map_lookup.
Qed.

Lemma top_feed_loop_rows (medium_instance : Medium) (topic_slug count : string)
      (today_date : date) (feed_mode : list string) (df df' : DataFrame) :
  rfor_fold (top_feed_body medium_instance topic_slug count today_date) feed_mode df = inr df' ->
  exists rows, df' = df ++ rows /\ length feed_mode <= length rows
               /\ Forall (fun row => exists feed, In feed feed_mode
                                                  /\ row !! "feed_mode" = Some (str feed)) rows.
Proof.
  revert df. induction feed_mode as [|feed modes IH]; intros df H; simpl in H.
  - injection H as <-. exists []. rewrite app_nil_r. repeat split; [simpl; lia | constructor].
  - destruct (top_feed_body _ _ _ _ df feed) as [e|df1] eqn:Hstep; [discriminate |].
    simpl in H. apply top_feed_body_rows in Hstep. destruct Hstep as (r1 & -> & Hlen & Hall).
    destruct (IH _ H) as (r2 & -> & Hlen2 & Hall2).
    exists (r1 ++ r2). rewrite <- app_assoc. split; [reflexivity |].
    split; [rewrite length_app; simpl; lia |].
    apply Forall_app. split.
    + eapply Forall_impl; [exact Hall |]. intros row Hrow. exists feed. split; [now left | auto].
    + eapply Forall_impl; [exact Hall2 |]. intros row (f & Hin & Hrow). exists f.
      split; [now right | auto].
Qed.

Lemma fetch_top_feeds_returned (env : Env) (medium_instance : Medium)
      (topic_slug : string) (feed_mode : list string) (count : string)
      (cfg : gmap string string) (load_to_bq : bool) (w w' : world) (df : DataFrame) :
  fetch_top_feeds env medium_instance topic_slug feed_mode count cfg load_to_bq w = (inr df, w') ->
  rfor_fold (top_feed_body medium_instance topic_slug count (datetime_now env (clock_reads w)))
            feed_mode [] = inr df.
Proof.
  rewrite fetch_top_feeds_then_load. intros H. apply then_load_returned in H.
  destruct H as [w1 H]. unfold bind, lift, datetime_now_date in H. now injection H.
Qed.

(** X9: when top-feed extraction returns, every row of its frame names, as
    [feed_mode], one of the modes requested, and every requested mode has at
    least one row (an empty feed is not skipped: [explode] is unguarded here
    too), so the frame has at least as many rows as there are modes. *)
Theorem top_feed_rows_per_mode (env : Env) (medium_instance : Medium)
        (topic_slug : string) (feed_mode : list string) (count : string)
        (cfg : gmap string string) (load_to_bq : bool) (w w' : world) (df : DataFrame) :
  fetch_top_feeds env medium_instance topic_slug feed_mode count cfg load_to_bq w = (inr df, w') ->
  length feed_mode <= length df
  /\ Forall (fun row => exists feed, In feed feed_mode /\ row !! "feed_mode" = Some (str feed)) df.
Proof.
  intros H. apply fetch_top_feeds_returned, top_feed_loop_rows in H.
  destruct H as (rows & -> & Hlen & Hall). auto.
Qed.

Lemma top_feed_rows_per_mode_witness :
  exists df,
    fst (fetch_top_feeds env_ok medium_double "ai" ["hot"; "new"] "10" users_config false world0)
    = inr df
    /\ map (fun row => row !! "feed_mode") df
       = [Some (str "hot"); Some (str "hot"); Some (str "new")]
    /\ 2 <= length df.
Proof.
  eexists. split; [reflexivity |]. split; [vm_compute; reflexivity |].
  exact (proj1 (top_feed_rows_per_mode env_ok medium_double "ai" ["hot"; "new"] "10"
                  users_config false world0 _ _ eq_refl)).
Defined.

(** X10: the loop over the feed modes has no boundary. When the feed of one
    mode cannot be fetched, after the modes before it were, that error leaves
    the node whatever the flag: no frame is returned, nothing is logged or
    loaded; only the clock has been read. *)
Theorem top_feed_failure_leaves_the_node (env : Env) (medium_instance : Medium)
        (topic_slug : string) (before after : list string) (feed count : string)
        (cfg : gmap string string) (load_to_bq : bool) (w : world)
        (df : DataFrame) (e : exception) :
  rfor_fold (top_feed_body medium_instance topic_slug count (datetime_now env (clock_reads w)))
            before [] = inr df ->
  Medium_topfeeds medium_instance topic_slug count feed = inl e ->
  fetch_top_feeds env medium_instance topic_slug (before ++ feed :: after) count
                  cfg load_to_bq w
  = (inl e, {| log := log w; bq_calls := bq_calls w; bq_tables := bq_tables w;
               clock_reads := S (clock_reads w) |}).
Proof.
  intros Hbefore Hfeed. unfold fetch_top_feeds, bind, lift, datetime_now_date.
  cbv beta iota.
  rewrite (rfor_fold_raises (Acc := DataFrame) _ before after feed [] df e Hbefore);
    [reflexivity |].
  unfold top_feed_body. now rewrite Hfeed.
Qed.

Lemma top_feed_failure_leaves_the_node_witness :
  fetch_top_feeds env_ok medium_feed_down "ai" ["hot"; "new"; "top"] "10" users_config
                  true world0
  = (inl (ClientError "503 Service Unavailable"),
     {| log := []; bq_calls := []; bq_tables := ∅; clock_reads := 1 |}).
Proof.
  exact (top_feed_failure_leaves_the_node env_ok medium_feed_down "ai" ["hot"] ["top"]
           "new" "10" users_config true world0 _ _ eq_refl eq_refl).
Defined.

(** ** Edge cases of the article node and of the user loop *)

(** X11: given a non-empty frame without the column [article_id], the
    article node raises [KeyError] at its first row, whatever the flag: no
    article is fetched, nothing is logged or loaded. *)
Theorem article_node_needs_the_article_id_column (env : Env) (medium_instance : Medium)
        (users_articles : DataFrame) (cfg : gmap string string) (load_to_bq : bool)
        (w : world) :
  users_articles <> [] ->
  df_has_column users_articles "article_id" = false ->
  fetch_user_articles_info env medium_instance users_articles cfg load_to_bq w
  = (inl (KeyError "article_id"), w).
Proof.
  intros Hne Hcol. apply fetch_user_articles_info_raises.
  destruct users_articles as [|row rows]; [congruence |].
  cbn [rfor_fold]. unfold article_body, df_cell. now rewrite Hcol.
Qed.

Lemma article_node_needs_the_article_id_column_witness :
  fetch_user_articles_info env_ok medium_double frame_without_article_id users_config
                           true world0
  = (inl (KeyError "article_id"), world0).
Proof.
  apply article_node_needs_the_article_id_column; [discriminate | reflexivity].
Defined.

Lemma user_info_outcome_without_id (user : User) (info : dict) :
  User_info user = inr info -> info !! "id" = None ->
  user_info_outcome user
  = if truthy (default (VScalar SNone) (info !! "top_writer_in"))
    then inl (KeyError "id")
    else inr (delete "top_writer_in" info, []).
Proof.
  intros Hinfo Hid. unfold user_info_outcome, dict_pop, append_relation, dict_getitem.
  rewrite Hinfo. cbn [rbind].
  destruct (truthy (default (VScalar SNone) (info !! "top_writer_in"))); [| reflexivity].
  rewrite lookup_delete_ne by discriminate. now rewrite Hid.
Qed.

(** X12: a writer whose info has no [id]. With keywords in [top_writer_in]
    the info step raises [KeyError] while building the keyword rows, before
    the info row is stored: the writer is left out of the info frame and of
    the keyword frame as if not there, and the failure is logged. Without
    keywords the [id] is never read and the info row is stored. *)
Theorem info_without_id (env : Env) (before after : list User) (user : User)
        (info : dict) (cfg : gmap string string) (w : world) :
  User_info user = inr info -> info !! "id" = None ->
  exists fr fr0 w' w0,
    extract_users env (before ++ user :: after) cfg false w = (inr fr, w')
    /\ extract_users env (before ++ after) cfg false w = (inr fr0, w0)
    /\ users_top_writer_in_df fr = users_top_writer_in_df fr0
    /\ if truthy (default (VScalar SNone) (info !! "top_writer_in"))
       then users_info_df fr = users_info_df fr0
            /\ In (msg_user_info user (KeyError "id")) (log w')
       else users_info_df fr
            = flat_map user_info_rows before ++ [delete "top_writer_in" info]
              ++ flat_map user_info_rows after.
Proof.
  intros Hinfo Hid. eexists. eexists. eexists. eexists.
  split; [rewrite extract_users_run; reflexivity |].
  split; [rewrite extract_users_run; reflexivity |].
  rewrite !fold_add_user. cbn [users_info_df users_top_writer_in_df users_frames0 app log add_log].
  rewrite !flat_map_app. cbn [flat_map].
  pose proof (user_info_outcome_without_id user info Hinfo Hid) as Hout.
  assert (Hkw : user_keyword_rows user = [])
    by (unfold user_keyword_rows; rewrite Hout; now destruct (truthy _)).
  rewrite Hkw. split; [reflexivity |].
  assert (Hrows : user_info_rows user
                  = if truthy (default (VScalar SNone) (info !! "top_writer_in"))
                    then [] else [delete "top_writer_in" info])
    by (unfold user_info_rows; rewrite Hout; now destruct (truthy _)).
  assert (Hlog : truthy (default (VScalar SNone) (info !! "top_writer_in")) = true ->
                 In (msg_user_info user (KeyError "id")) (user_log user)).
  { intros Ht. unfold user_log. rewrite Hout, Ht. now left. }
  rewrite Hrows.
  destruct (truthy (default (VScalar SNone) (info !! "top_writer_in"))).
  - split; [reflexivity |].
    rewrite !in_app_iff. right. right. left. now apply Hlog.
  - reflexivity.
Qed.

Lemma info_without_id_witness :
  exists fr w',
    extract_users env_ok [writer_a; writer_without_id; writer_b] users_config false world0
    = (inr fr, w')
    /\ map (fun row => row !! "fullname") (users_info_df fr) = [Some (str "Ada"); Some (str "Bob")]
    /\ In (msg_user_info writer_without_id (KeyError "id")) (log w').
Proof.
  destruct (info_without_id env_ok [writer_a] [writer_b] writer_without_id _ users_config
              world0 eq_refl eq_refl)
    as (fr & fr0 & w' & w0 & H & _ & _ & Hinfo & Hlog).
  exists fr, w'. split; [exact H |]. split; [| exact Hlog].
  rewrite extract_users_run in H. cbv zeta in H. apply (f_equal fst) in H.
  cbn [fst] in H. injection H as <-. vm_compute. reflexivity.
Defined.

(** X13: on an empty frame the article node consults nothing: whatever the
    client, it returns its eight frames empty. With the flag on it still
    builds the credentials and, if they are built, calls the warehouse once
    per table with an empty frame. *)
Theorem article_node_on_empty_frame (env : Env) (medium_instance : Medium)
        (cfg : gmap string string) (w : world) :
  fetch_user_articles_info env medium_instance [] cfg false w = (inr articles_frames0, w)
  /\ match from_service_account_file env (cfg !! "credentials_path") with
     | inl e => fetch_user_articles_info env medium_instance [] cfg true w = (inl e, w)
     | inr _ =>
         exists w',
           fetch_user_articles_info env medium_instance [] cfg true w
           = (inr articles_frames0, w')
           /\ bq_calls w'
              = bq_calls w
                ++ map (fun key => (destination cfg key, []))
                       [ "articles_info_table"; "article_tags_table"; "article_topics_table";
                         "article_fans_id_table"; "article_related_articles_table";
                         "articles_comments_info_table"; "article_comments_tag_info_table";
                         "article_comments_topic_info_table" ]
     end.
Proof.
  split; [reflexivity |].
  unfold fetch_user_articles_info, bind, lift, ret. cbn [rfor_fold].
  rewrite load_to_bigquery_run.
  destruct (from_service_account_file env (cfg !! "credentials_path")) as [e|creds];
    [reflexivity |].
  destruct (load_blocks_run env creds cfg (articles_load_list articles_frames0) w)
    as (w' & -> & _ & Hcalls & _).
  exists w'. split; [reflexivity | exact Hcalls].
Qed.

(** ** The tokens and the counts *)

(** X14: on ASCII text the words of a description are the pieces between
    separators. An ASCII character outside [\w] (anything but a letter, a
    digit or the underscore) splits the text: the words of the whole are the
    words of what is before it followed by the words of what is after it; a
    non-empty run of word characters is one word; the empty text has none. *)
Theorem findall_words_splits_at_separators :
  (forall (a b : string) (c : ascii),
      is_ascii_text (a +:+ String c b) = true ->
      is_word_char c = false ->
      findall_words (a +:+ String c b) = findall_words a ++ findall_words b)
  /\ (forall w : string,
         is_ascii_text w = true ->
         chars_all (fun c => is_word_char c = true) w -> w <> EmptyString ->
         findall_words w = [w])
  /\ findall_words EmptyString = [].
Proof.
  split; [| split; [| reflexivity]].
  - intros a b c _ Hc. apply scan_words_separator. exact Hc.
  - intros w _ Hw Hne. unfold findall_words. rewrite scan_words_run by assumption.
    destruct w; [congruence | reflexivity].
Qed.

Lemma findall_words_splits_at_separators_witness :
  findall_words "data_2-science" = ["data_2"; "science"].
Proof.
  change "data_2-science" with ("data_2" +:+ String "-"%char "science").
  rewrite (proj1 findall_words_splits_at_separators "data_2" "science" "-"%char
                 eq_refl eq_refl).
  rewrite !(proj1 (proj2 findall_words_splits_at_separators)); simpl;
    try discriminate; intuition reflexivity.
Defined.

(** X16: a tag written again later in the sequence changes nothing: the
    most relevant tag of a sequence in which a tag is repeated is that of the
    sequence without the repetition. *)
Theorem repeated_tag_changes_nothing (description t : string) (tags later : list string) :
  In t tags ->
  most_relevant_tag description (tags ++ t :: later)
  = most_relevant_tag description (tags ++ later).
Proof.
  intros Hin. unfold most_relevant_tag. rewrite !hashtag_relevance_fill.
  unfold fill. rewrite !fold_left_app. cbn [fold_left].
  fold (fill (tag_relevance (description_words description)) tags).
  destruct (fill_spec (tag_relevance (description_words description)) tags) as (Hs & Hk & _).
  rewrite (counter_setitem_present _ _ _ Hs) by now apply Hk. reflexivity.
Qed.

Lemma repeated_tag_changes_nothing_witness :
  most_relevant_tag "data science" ["sports"; "data"; "sports"; "science"]
  = most_relevant_tag "data science" ["sports"; "data"; "science"].
Proof.
  apply (repeated_tag_changes_nothing "data science" "sports" ["sports"; "data"] ["science"]).
  simpl. tauto.
Defined.






(** ** What is sent to the warehouse *)

Lemma then_load_calls {A} (env : Env) (cfg : gmap string string)
      (load_list : A -> list (DataFrame * string)) (extraction : M A)
      (w w' : world) (fr : A) :
  then_load env cfg load_list extraction true w = (inr fr, w') ->
  exists w1, extraction w = (inr fr, w1)
             /\ bq_calls w'
                = bq_calls w1
                  ++ map (fun '(df, key) => (destination cfg key, df)) (load_list fr).
Proof.
  unfold then_load, bind, ret. destruct (extraction w) as [[e|fr1] w1]; [discriminate |].
  rewrite load_to_bigquery_run.
  destruct (from_service_account_file env (cfg !! "credentials_path")) as [e|creds];
    [discriminate |].
  destruct (load_blocks_run env creds cfg (load_list fr1) w1) as (w2 & -> & _ & Hcalls & _).
  intros [= <- <-]. eauto.
Qed.

(** X17: what a node loads is what it returns. When a node run with the
    flag on returns, the calls it made to the warehouse are one per frame, in
    the order of the returned tuple, and the frame sent by each call is the
    frame returned to the caller, rows and all. *)
Theorem loaded_frames_are_the_returned_frames (env : Env) (cfg : gmap string string)
        (w w' : world) :
  (forall users fr,
      extract_users env users cfg true w = (inr fr, w') ->
      map snd (bq_calls w')
      = map snd (bq_calls w)
        ++ [ users_info_df fr; users_top_writer_in_df fr; user_followers_df fr;
             user_followings_df fr; users_articles_df fr ])
  /\ (forall medium_instance users_articles fr,
         fetch_user_articles_info env medium_instance users_articles cfg true w = (inr fr, w') ->
         map snd (bq_calls w')
         = map snd (bq_calls w)
           ++ [ articles_info_df fr; article_tags_df fr; article_topics_df fr;
                article_fans_id_df fr; article_related_articles_ids_df fr;
                articles_comments_info_df fr; article_comments_tag_info_df fr;
                article_comments_topic_info_df fr ])
  /\ (forall medium_instance topic_slug fr,
         fetch_publications_info env medium_instance topic_slug cfg true w = (inr fr, w') ->
         map snd (bq_calls w')
         = map snd (bq_calls w)
           ++ [ publication_info_df fr; publication_tags_df fr;
                publication_editors_df fr; publication_articles_df fr ])
  /\ (forall medium_instance topic_slug feed_mode count df,
         fetch_top_feeds env medium_instance topic_slug feed_mode count cfg true w
         = (inr df, w') ->
         map snd (bq_calls w') = map snd (bq_calls w) ++ [df]).
Proof.
  split; [| split; [| split]].
  - intros users fr H. apply (then_load_calls env cfg users_load_list) in H.
    destruct H as (w1 & Hext & ->). rewrite extract_user_loop in Hext.
    injection Hext as _ <-. now rewrite map_app.
  - intros m df fr H. apply (then_load_calls env cfg articles_load_list) in H.
    destruct H as (w1 & Hext & ->). unfold lift in Hext. injection Hext as _ <-.
    now rewrite map_app.
  - intros m slug fr H. rewrite fetch_publications_info_then_load in H.
    apply then_load_calls in H. destruct H as (w1 & Hext & ->).
    unfold bind, lift in Hext.
    destruct (Medium_search_publications m slug); [discriminate |].
    injection Hext as _ <-. now rewrite map_app.
  - intros m slug modes count df H. rewrite fetch_top_feeds_then_load in H.
    apply then_load_calls in H. destruct H as (w1 & Hext & ->).
    unfold bind, lift, datetime_now_date in Hext. injection Hext as _ <-.
    now rewrite map_app.
Qed.

Lemma loaded_frames_are_the_returned_frames_witness :
  exists df w',
    fetch_top_feeds env_accepting medium_double "ai" ["new"] "10" users_config true world0
    = (inr df, w')
    /\ map snd (bq_calls w') = [df].
Proof.
  eexists. eexists. split; [vm_compute; reflexivity |].
  refine (proj2 (proj2 (proj2 (loaded_frames_are_the_returned_frames
                                 env_accepting users_config world0 _)))
                medium_double "ai" ["new"] "10" _ eq_refl).
Defined.

(** ** The chain of the pipeline: top writers, users, articles *)

(** The row an empty article list leaves in the user-articles frame. *)
Lemma empty_article_list_rows (user : User) :
  User_article_ids user = inr (VList []) ->
  user_relation_rows user "article_id" (User_article_ids user)
  = [ <["article_id" := VScalar SNaN]> {[ "user_id" := str (User_id user) ]} ].
Proof.
  intros ->. unfold user_relation_rows, relation_frame, explode, explode_row. cbn [flat_map].
  rewrite lookup_insert_eq, insert_insert_eq, insert_empty. reflexivity.
Qed.

(** X15: the user node hands its user-articles frame to the article node
    ([create_pipeline]). When the user node returns, a writer with an empty
    article list has in that frame, between the rows of the writers before and
    after, one row whose [article_id] is NaN; the article node, once the rows
    before it are processed, asks the client for the article NaN, and when the
    client raises on that request the chain from the top writers to the
    articles raises that very error: no article frame is produced. *)
Theorem empty_article_list_stops_the_article_node (env : Env)
        (top_writers : string -> string -> result TopWriters) (medium_instance : Medium)
        (topic_slug count : string) (cfg : gmap string string) (load_to_bq : bool)
        (w w1 : world) (before after : list User) (user : User)
        (fr : users_frames) (acc : articles_frames) (e0 : exception) :
  fetch_top_writers top_writers topic_slug count = inr (before ++ user :: after) ->
  User_article_ids user = inr (VList []) ->
  extract_users env (before ++ user :: after) cfg load_to_bq w = (inr fr, w1) ->
  rfor_fold (article_body medium_instance (users_articles_df fr))
            (flat_map (fun u => user_relation_rows u "article_id" (User_article_ids u)) before)
            articles_frames0 = inr acc ->
  Medium_article medium_instance (VScalar SNaN) = inl e0 ->
  users_articles_df fr
  = flat_map (fun u => user_relation_rows u "article_id" (User_article_ids u)) before
    ++ <["article_id" := VScalar SNaN]> {[ "user_id" := str (User_id user) ]}
    :: flat_map (fun u => user_relation_rows u "article_id" (User_article_ids u)) after
  /\ writers_to_articles env top_writers medium_instance topic_slug count cfg load_to_bq w
     = (inl e0, w1).
Proof.
  intros Hw Hids Hext Hbefore Hnan.
  assert (Hdf : users_articles_df fr
                = flat_map (fun u => user_relation_rows u "article_id" (User_article_ids u))
                           before
                  ++ <["article_id" := VScalar SNaN]> {[ "user_id" := str (User_id user) ]}
                  :: flat_map (fun u => user_relation_rows u "article_id" (User_article_ids u))
                              after).
  { rewrite (extract_users_returned _ _ _ _ _ _ _ Hext), fold_add_user.
    cbn [users_articles_df users_frames0 app]. rewrite flat_map_app. cbn [flat_map].
    now rewrite (empty_article_list_rows user Hids). }
  split; [exact Hdf |].
  unfold writers_to_articles, bind, lift. rewrite Hw, Hext.
  apply fetch_user_articles_info_raises.
  set (row := <["article_id" := VScalar SNaN]> {[ "user_id" := str (User_id user) ]}) in *.
  assert (Hloop : rfor_fold (article_body medium_instance (users_articles_df fr))
                            (flat_map (fun u => user_relation_rows u "article_id"
                                                  (User_article_ids u)) before
                             ++ row
                             :: flat_map (fun u => user_relation_rows u "article_id"
                                                     (User_article_ids u)) after)
                            articles_frames0 = inl e0).
  { apply (rfor_fold_raises _ _ _ _ _ _ _ Hbefore). unfold article_body, df_cell.
    assert (Hcol : df_has_column (users_articles_df fr) "article_id" = true).
    { apply existsb_exists. exists row. split.
      - rewrite Hdf. apply in_app_iff. right. now left.
      - apply bool_decide_eq_true. unfold row. rewrite lookup_insert_eq. eauto. }
    rewrite Hcol. unfold row at 1. rewrite lookup_insert_eq.
    change (default (VScalar SNaN) (Some (VScalar SNaN))) with (VScalar SNaN).
    cbn [rbind]. now rewrite Hnan. }
  now rewrite <- Hdf in Hloop.
Qed.

(** The first writer's article is served; the second writer has none, and
    the client answers the request for NaN with 400 (it would answer an
    unknown article with 504). *)
Lemma empty_article_list_stops_the_article_node_witness :
  Medium_article medium_double (VScalar SNaN) = inl (ClientError "400 Bad Request")
  /\ exists w1,
       writers_to_articles env_ok top_writers_double medium_double "ai" "10" users_config
                           false world0
       = (inl (ClientError "400 Bad Request"), w1).
Proof.
  split; [reflexivity |].
  assert (Hext : extract_users env_ok ([writer_c] ++ writer_b :: []) users_config false world0
                 = (inr (fold_left add_user [writer_c; writer_b] users_frames0),
                    add_log world0 (flat_map user_log [writer_c; writer_b])))
    by (rewrite extract_users_run; reflexivity).
  eassert (Hbefore : rfor_fold
                       (article_body medium_double
                          (users_articles_df (fold_left add_user [writer_c; writer_b]
                                                        users_frames0)))
                       (flat_map (fun u => user_relation_rows u "article_id"
                                             (User_article_ids u)) [writer_c])
                       articles_frames0 = inr _)
    by (vm_compute; reflexivity).
  eexists.
  exact (proj2 (empty_article_list_stops_the_article_node env_ok top_writers_double
                  medium_double "ai" "10" users_config false world0 _ [writer_c] []
                  writer_b _ _ _ eq_refl eq_refl Hext Hbefore eq_refl)).
Defined.
